(** * SASB permission registry: a shallow embedding of
    [src/permission_request.py] and the properties of its lifecycle,
    identifiers and persistence. *)

From Stdlib Require Import List String Ascii Bool Arith Lia.
From Stdlib Require Import Decimal DecimalString DecimalNat.
Import ListNotations.
Open Scope string_scope.
Set Warnings "-register-all".

(** ** Enumerations *)

Inductive PermissionStatus := PENDING | GRANTED | DENIED | REVOKED.

Inductive DataSource := WORLD_BANK_API | OPENAQ_KAGGLE | CUSTOM.

(** [PermissionStatus.value] *)
Definition status_value (s : PermissionStatus) : string :=
  match s with
  | PENDING => "pending"
  | GRANTED => "granted"
  | DENIED => "denied"
  | REVOKED => "revoked"
  end.

(** [DataSource.value] *)
Definition source_value (s : DataSource) : string :=
  match s with
  | WORLD_BANK_API => "world_bank_api"
  | OPENAQ_KAGGLE => "openaq_kaggle"
  | CUSTOM => "custom"
  end.

Definition status_eqb (a b : PermissionStatus) : bool :=
  match a, b with
  | PENDING, PENDING | GRANTED, GRANTED | DENIED, DENIED | REVOKED, REVOKED => true
  | _, _ => false
  end.

Definition source_eqb (a b : DataSource) : bool :=
  match a, b with
  | WORLD_BANK_API, WORLD_BANK_API | OPENAQ_KAGGLE, OPENAQ_KAGGLE | CUSTOM, CUSTOM => true
  | _, _ => false
  end.

(** ** JSON values, as [json.loads] returns them.  A [JObj] lists the items
    of a Python dict in insertion order. *)

Inductive json :=
| JNull
| JBool (b : bool)
| JInt (literal : string)
| JFloat (literal : string)
| JStr (s : string)
| JArr (elems : list json)
| JObj (items : list (string * json)).

(** [type(v).__name__] *)
Definition type_name (v : json) : string :=
  match v with
  | JNull => "NoneType"
  | JBool _ => "bool"
  | JInt _ => "int"
  | JFloat _ => "float"
  | JStr _ => "str"
  | JArr _ => "list"
  | JObj _ => "dict"
  end.

(** ** The dataclass *)

Record PermissionRequest := mkRequest {
  request_id : string;
  requester : string;
  data_source : DataSource;
  purpose : string;
  status : PermissionStatus;
  created_at : string;
  updated_at : string;
  granted_by : option string;
  notes : option string
}.

Definition set_status (s : PermissionStatus) (r : PermissionRequest) :=
  mkRequest (request_id r) (requester r) (data_source r) (purpose r) s
            (created_at r) (updated_at r) (granted_by r) (notes r).

Definition set_granted_by (a : option string) (r : PermissionRequest) :=
  mkRequest (request_id r) (requester r) (data_source r) (purpose r) (status r)
            (created_at r) (updated_at r) a (notes r).

Definition set_updated_at (t : string) (r : PermissionRequest) :=
  mkRequest (request_id r) (requester r) (data_source r) (purpose r) (status r)
            (created_at r) t (granted_by r) (notes r).

Definition set_notes (n : option string) (r : PermissionRequest) :=
  mkRequest (request_id r) (requester r) (data_source r) (purpose r) (status r)
            (created_at r) (updated_at r) (granted_by r) n.

(** ** Python dicts with string keys: items in insertion order. *)

Definition dict (V : Type) := list (string * V).

Fixpoint dict_get {V} (k : string) (d : dict V) : option V :=
  match d with
  | [] => None
  | (k', v) :: d' => if String.eqb k k' then Some v else dict_get k d'
  end.

Definition dict_contains {V} (k : string) (d : dict V) : bool :=
  match dict_get k d with Some _ => true | None => false end.

(** [d[k] = v]: an existing key keeps its position, a new key goes last. *)
Fixpoint dict_set {V} (k : string) (v : V) (d : dict V) : dict V :=
  match d with
  | [] => [(k, v)]
  | (k', v') :: d' =>
      if String.eqb k k' then (k', v) :: d' else (k', v') :: dict_set k v d'
  end.

Definition dict_keys {V} (d : dict V) : list string := map fst d.

Definition dict_values {V} (d : dict V) : list V := map snd d.

(** ** Clock readings and their two renderings *)

Record datetime := mkDatetime {
  year : nat; month : nat; day : nat;
  hour : nat; minute : nat; second : nat;
  microsecond : nat
}.

Definition digits (n : nat) : string := NilEmpty.string_of_uint (Nat.to_uint n).

Fixpoint zeros (k : nat) : string :=
  match k with
  | O => ""
  | S k' => String "0" (zeros k')
  end.

(** [format(n, "0<width>d")] *)
Definition format_d (width n : nat) : string :=
  zeros (width - String.length (digits n)) ++ digits n.

(** [t.strftime("%Y%m%d%H%M%S")] *)
Definition strftime_compact (t : datetime) : string :=
  format_d 4 (year t) ++ format_d 2 (month t) ++ format_d 2 (day t) ++
  format_d 2 (hour t) ++ format_d 2 (minute t) ++ format_d 2 (second t).

(** [t.isoformat()] of a UTC-aware reading: the fraction is printed only when
    it is not zero. *)
Definition isoformat (t : datetime) : string :=
  format_d 4 (year t) ++ "-" ++ format_d 2 (month t) ++ "-" ++ format_d 2 (day t) ++
  "T" ++ format_d 2 (hour t) ++ ":" ++ format_d 2 (minute t) ++ ":" ++
  format_d 2 (second t) ++
  (if Nat.eqb (microsecond t) 0 then "" else "." ++ format_d 6 (microsecond t)) ++
  "+00:00".

(** ** Exceptions, the log, the store file and the program state *)

Inductive exn :=
| KeyError (arg : string)
| ValueError (msg : string)
| EnumValueError (value : json) (enum_name : string)
    (* the ValueError of a failed Enum lookup *)
| JSONDecodeError (msg : string)
    (* a subclass of ValueError *)
| TypeError (msg : string)
| AttributeError (msg : string).

Inductive log_level := INFO | WARNING.

Inductive log_arg := ArgInt (n : nat) | ArgStr (s : string) | ArgExn (e : exn).

Record log_record := mkLog {
  level : log_level;
  fmt : string;
  args : list log_arg
}.

(** What the file at [storage_path] holds: text that [json.loads] rejects
    (with the decoder's message), or the value it parses to. *)
Inductive file_content :=
| Unparsable (msg : string)
| Parsed (data : json).

Record state := mkState {
  storage_path : string;
  requests : dict PermissionRequest;      (* self._requests *)
  storage : option file_content;          (* None: the file does not exist *)
  clock : nat -> datetime;                (* the successive readings of datetime.now *)
  ticks : nat;                            (* how many readings were taken *)
  log : list log_record
}.

Definition set_requests (d : dict PermissionRequest) (st : state) : state :=
  mkState (storage_path st) d (storage st) (clock st) (ticks st) (log st).

Definition set_storage (f : option file_content) (st : state) : state :=
  mkState (storage_path st) (requests st) f (clock st) (ticks st) (log st).

Definition set_ticks (n : nat) (st : state) : state :=
  mkState (storage_path st) (requests st) (storage st) (clock st) n (log st).

Definition add_log (l : log_record) (st : state) : state :=
  mkState (storage_path st) (requests st) (storage st) (clock st) (ticks st)
          (log st ++ [l]).

(** ** The monad of the embedding: state with exceptions.  [Untyped] ends a
    run in which a field of the dataclass would receive a value outside its
    annotation (Python checks no annotation; the typed record cannot hold
    it). *)

Inductive outcome (A : Type) :=
| Return (a : A)
| Raise (e : exn)
| Untyped.

Arguments Return {A} a.
Arguments Raise {A} e.
Arguments Untyped {A}.

Definition M (A : Type) := state -> outcome A * state.

Definition ret {A} (a : A) : M A := fun st => (Return a, st).

Definition raise {A} (e : exn) : M A := fun st => (Raise e, st).

Definition untyped {A} : M A := fun st => (Untyped, st).

Definition bind {A B} (m : M A) (f : A -> M B) : M B :=
  fun st =>
    match m st with
    | (Return a, st') => f a st'
    | (Raise e, st') => (Raise e, st')
    | (Untyped, st') => (Untyped, st')
    end.

Declare Scope py_scope.
Delimit Scope py_scope with py.
Notation "x <- c1 ;; c2" := (bind c1 (fun x => c2))
  (at level 61, c1 at next level, right associativity) : py_scope.
Notation "c1 ;; c2" := (bind c1 (fun _ => c2))
  (at level 61, right associativity) : py_scope.
Open Scope py_scope.

Definition get_state : M state := fun st => (Return st, st).

Definition modify (f : state -> state) : M unit := fun st => (Return tt, f st).

(** [try: body except (json.JSONDecodeError, KeyError, ValueError) as e: handler e] *)
Definition caught (e : exn) : bool :=
  match e with
  | KeyError _ | ValueError _ | EnumValueError _ _ | JSONDecodeError _ => true
  | TypeError _ | AttributeError _ => false
  end.

Definition try_except {A} (body : M A) (handler : exn -> M A) : M A :=
  fun st =>
    match body st with
    | (Raise e, st') => if caught e then handler e st' else (Raise e, st')
    | r => r
    end.

Definition LOGGER_info (f : string) (a : list log_arg) : M unit :=
  modify (add_log (mkLog INFO f a)).

Definition LOGGER_warning (f : string) (a : list log_arg) : M unit :=
  modify (add_log (mkLog WARNING f a)).

(** [datetime.now(timezone.utc)] *)
Definition now : M datetime :=
  fun st => (Return (clock st (ticks st)), set_ticks (S (ticks st)) st).

Definition now_isoformat : M string := t <- now ;; ret (isoformat t).

(** ** Serialization: [PermissionRequest.to_dict] and [from_dict] *)

Definition json_of_optional (o : option string) : json :=
  match o with
  | Some s => JStr s
  | None => JNull
  end.

Definition to_dict (r : PermissionRequest) : json :=
  JObj [ ("request_id", JStr (request_id r));
         ("requester", JStr (requester r));
         ("data_source", JStr (source_value (data_source r)));
         ("purpose", JStr (purpose r));
         ("status", JStr (status_value (status r)));
         ("created_at", JStr (created_at r));
         ("updated_at", JStr (updated_at r));
         ("granted_by", json_of_optional (granted_by r));
         ("notes", json_of_optional (notes r)) ].

(** [DataSource(value)] and [PermissionStatus(value)]: lookup by value. *)
Definition DataSource_call (v : json) : M DataSource :=
  match v with
  | JStr s =>
      if s =? "world_bank_api" then ret WORLD_BANK_API
      else if s =? "openaq_kaggle" then ret OPENAQ_KAGGLE
      else if s =? "custom" then ret CUSTOM
      else raise (EnumValueError v "DataSource")
  | _ => raise (EnumValueError v "DataSource")
  end.

Definition PermissionStatus_call (v : json) : M PermissionStatus :=
  match v with
  | JStr s =>
      if s =? "pending" then ret PENDING
      else if s =? "granted" then ret GRANTED
      else if s =? "denied" then ret DENIED
      else if s =? "revoked" then ret REVOKED
      else raise (EnumValueError v "PermissionStatus")
  | _ => raise (EnumValueError v "PermissionStatus")
  end.

(** [data[key]] on a dict *)
Definition getitem (key : string) (d : dict json) : M json :=
  match dict_get key d with
  | Some v => ret v
  | None => raise (KeyError key)
  end.

Definition field_names : list string :=
  [ "request_id"; "requester"; "data_source"; "purpose"; "status";
    "created_at"; "updated_at"; "granted_by"; "notes" ].

Definition as_str (v : json) : M string :=
  match v with
  | JStr s => ret s
  | _ => untyped
  end.

Definition as_optional_str (v : json) : M (option string) :=
  match v with
  | JStr s => ret (Some s)
  | JNull => ret None
  | _ => untyped
  end.

(** How CPython lists the missing arguments of a call. *)
Definition missing_arguments (names : list string) : string :=
  match names with
  | [a] => "1 required positional argument: '" ++ a ++ "'"
  | [a; b] => "2 required positional arguments: '" ++ a ++ "' and '" ++ b ++ "'"
  | [a; b; c] =>
      "3 required positional arguments: '" ++ a ++ "', '" ++ b ++ "', and '" ++ c ++ "'"
  | _ => ""
  end.

(** The last line of [from_dict]: the generated [__init__] called with the
    items of [d] as keyword arguments, [data_source] and [status] already converted.  A key
    that is no field, or a missing field without default, is a TypeError; the
    two timestamps default to one clock reading each. *)
Definition PermissionRequest_init (d : dict json) (ds : DataSource)
    (stt : PermissionStatus) : M PermissionRequest :=
  match find (fun k => negb (existsb (String.eqb k) field_names)) (dict_keys d) with
  | Some k =>
      raise (TypeError ("PermissionRequest.__init__() got an unexpected keyword argument '"
                        ++ k ++ "'"))
  | None =>
      match dict_get "request_id" d, dict_get "requester" d, dict_get "purpose" d with
      | Some i, Some rq, Some p =>
          i' <- as_str i ;;
          rq' <- as_str rq ;;
          p' <- as_str p ;;
          c <- match dict_get "created_at" d with
               | Some v => as_str v
               | None => now_isoformat
               end ;;
          u <- match dict_get "updated_at" d with
               | Some v => as_str v
               | None => now_isoformat
               end ;;
          g <- match dict_get "granted_by" d with
               | Some v => as_optional_str v
               | None => ret None
               end ;;
          n <- match dict_get "notes" d with
               | Some v => as_optional_str v
               | None => ret None
               end ;;
          ret (mkRequest i' rq' ds p' stt c u g n)
      | _, _, _ =>
          raise (TypeError ("PermissionRequest.__init__() missing "
                            ++ missing_arguments
                                 (filter (fun k => negb (dict_contains k d))
                                         ["request_id"; "requester"; "purpose"])))
      end
  end.

Definition from_dict (data : json) : M PermissionRequest :=
  match data with
  | JObj d =>
      v <- getitem "data_source" d ;;
      ds <- DataSource_call v ;;
      w <- getitem "status" d ;;
      stt <- PermissionStatus_call w ;;
      PermissionRequest_init d ds stt
  | JArr _ => raise (TypeError "list indices must be integers or slices, not str")
  | JStr _ => raise (TypeError "string indices must be integers, not 'str'")
  | _ => raise (TypeError ("'" ++ type_name data ++ "' object is not subscriptable"))
  end.

(** ** PermissionManager *)

Definition json_loads (c : file_content) : M json :=
  match c with
  | Unparsable msg => raise (JSONDecodeError msg)
  | Parsed v => ret v
  end.

(** [data.items()]: only a dict has the method. *)
Definition json_items (v : json) : M (dict json) :=
  match v with
  | JObj d => ret d
  | _ => raise (AttributeError ("'" ++ type_name v ++ "' object has no attribute 'items'"))
  end.

(** [{k: PermissionRequest.from_dict(v) for k, v in data.items()}] *)
Fixpoint load_items (items : dict json) (acc : dict PermissionRequest)
    : M (dict PermissionRequest) :=
  match items with
  | [] => ret acc
  | (k, v) :: rest => r <- from_dict v ;; load_items rest (dict_set k r acc)
  end.

Definition _load : M unit :=
  st <- get_state ;;
  match storage st with
  | None => ret tt
  | Some content =>
      try_except
        (data <- json_loads content ;;
         items <- json_items data ;;
         reqs <- load_items items [] ;;
         modify (set_requests reqs) ;;
         LOGGER_info "Loaded %d permission requests from %s"
                     [ArgInt (List.length reqs); ArgStr (storage_path st)])
        (fun e =>
           LOGGER_warning "Failed to load permissions: %s" [ArgExn e] ;;
           modify (set_requests []))
  end.

Definition dump_requests (d : dict PermissionRequest) : json :=
  JObj (map (fun kv => (fst kv, to_dict (snd kv))) d).

(** The file is overwritten with [json.dumps] of the whole mapping;
    [json.loads] of that text gives the mapping back. *)
Definition _save : M unit :=
  st <- get_state ;;
  modify (set_storage (Some (Parsed (dump_requests (requests st))))) ;;
  LOGGER_info "Saved %d permission requests to %s"
              [ArgInt (List.length (requests st)); ArgStr (storage_path st)].

(** [PermissionManager(storage_path)] *)
Definition init : M unit :=
  modify (set_requests []) ;;
  _load.

Definition _generate_request_id : M string :=
  timestamp <- now ;;
  st <- get_state ;;
  let count := List.length (requests st) + 1 in
  ret ("PR-" ++ strftime_compact timestamp ++ "-" ++ format_d 4 count).

Definition create_request (who : string) (src : DataSource) (why : string)
    (note : option string) : M PermissionRequest :=
  rid <- _generate_request_id ;;
  c <- now_isoformat ;;
  u <- now_isoformat ;;
  let request := mkRequest rid who src why PENDING c u None note in
  modify (fun st => set_requests (dict_set rid request (requests st)) st) ;;
  _save ;;
  LOGGER_info "Created permission request %s for %s by %s"
              [ArgStr rid; ArgStr (source_value src); ArgStr who] ;;
  ret request.

(** Truth value of an [Optional[str]]: [None] and the empty string are false. *)
Definition truthy (o : option string) : bool :=
  match o with
  | Some s => negb (s =? "")
  | None => false
  end.

Definition grant_permission (rid : string) (actor : string) (note : option string)
    : M PermissionRequest :=
  st <- get_state ;;
  match dict_get rid (requests st) with
  | None => raise (KeyError ("Permission request " ++ rid ++ " not found"))
  | Some request =>
      if negb (status_eqb (status request) PENDING) then
        raise (ValueError ("Cannot grant request " ++ rid ++ " - status is "
                           ++ status_value (status request)))
      else
        let request := set_status GRANTED request in
        let request := set_granted_by (Some actor) request in
        t <- now_isoformat ;;
        let request := set_updated_at t request in
        let request := if truthy note then set_notes note request else request in
        modify (fun st => set_requests (dict_set rid request (requests st)) st) ;;
        _save ;;
        LOGGER_info "Permission request %s granted by %s" [ArgStr rid; ArgStr actor] ;;
        ret request
  end.

Definition deny_permission (rid : string) (actor : string) (note : option string)
    : M PermissionRequest :=
  st <- get_state ;;
  match dict_get rid (requests st) with
  | None => raise (KeyError ("Permission request " ++ rid ++ " not found"))
  | Some request =>
      if negb (status_eqb (status request) PENDING) then
        raise (ValueError ("Cannot deny request " ++ rid ++ " - status is "
                           ++ status_value (status request)))
      else
        let request := set_status DENIED request in
        let request := set_granted_by (Some actor) request in
        t <- now_isoformat ;;
        let request := set_updated_at t request in
        let request := if truthy note then set_notes note request else request in
        modify (fun st => set_requests (dict_set rid request (requests st)) st) ;;
        _save ;;
        LOGGER_info "Permission request %s denied by %s" [ArgStr rid; ArgStr actor] ;;
        ret request
  end.

Definition revoke_permission (rid : string) (actor : string) (note : option string)
    : M PermissionRequest :=
  st <- get_state ;;
  match dict_get rid (requests st) with
  | None => raise (KeyError ("Permission request " ++ rid ++ " not found"))
  | Some request =>
      if negb (status_eqb (status request) GRANTED) then
        raise (ValueError ("Cannot revoke request " ++ rid ++ " - status is "
                           ++ status_value (status request)))
      else
        let request := set_status REVOKED request in
        let request := set_granted_by (Some actor) request in
        t <- now_isoformat ;;
        let request := set_updated_at t request in
        let request := if truthy note then set_notes note request else request in
        modify (fun st => set_requests (dict_set rid request (requests st)) st) ;;
        _save ;;
        LOGGER_info "Permission request %s revoked by %s" [ArgStr rid; ArgStr actor] ;;
        ret request
  end.

Definition get_request (rid : string) (st : state) : option PermissionRequest :=
  dict_get rid (requests st).

Definition list_requests (by_status : option PermissionStatus)
    (by_source : option DataSource) (by_requester : option string) (st : state)
    : list PermissionRequest :=
  let results := dict_values (requests st) in
  let results :=
    match by_status with
    | Some s => filter (fun r => status_eqb (status r) s) results
    | None => results
    end in
  let results :=
    match by_source with
    | Some s => filter (fun r => source_eqb (data_source r) s) results
    | None => results
    end in
  match by_requester with
  | Some q => filter (fun r => String.eqb (requester r) q) results
  | None => results
  end.

Definition has_permission (who : string) (src : DataSource) (st : state) : bool :=
  existsb (fun request =>
             String.eqb (requester request) who &&
             source_eqb (data_source request) src &&
             status_eqb (status request) GRANTED)
          (dict_values (requests st)).

Definition clear_all : M unit :=
  modify (set_requests []) ;;
  st <- get_state ;;
  (match storage st with
   | Some _ => modify (set_storage None)
   | None => ret tt
   end) ;;
  LOGGER_info "Cleared all permission requests" [].

(** ** Sequences of operations on one registry *)

Inductive action :=
| Create (who : string) (src : DataSource) (why : string) (note : option string)
| Grant (rid actor : string) (note : option string)
| Deny (rid actor : string) (note : option string)
| Revoke (rid actor : string) (note : option string)
| ClearAll
| Reopen.                      (* a fresh PermissionManager on the same path *)

(** The state an operation leaves behind, whether it returned or raised. *)
Definition perform (a : action) (st : state) : state :=
  match a with
  | Create who src why note => snd (create_request who src why note st)
  | Grant rid actor note => snd (grant_permission rid actor note st)
  | Deny rid actor note => snd (deny_permission rid actor note st)
  | Revoke rid actor note => snd (revoke_permission rid actor note st)
  | ClearAll => snd (clear_all st)
  | Reopen => snd (init st)
  end.

Definition run (acts : list action) (st : state) : state :=
  fold_left (fun s a => perform a s) acts st.

Definition is_lifecycle (a : action) : bool :=
  match a with
  | Create _ _ _ _ | Grant _ _ _ | Deny _ _ _ | Revoke _ _ _ => true
  | ClearAll | Reopen => false
  end.


(** A store that a new manager reads as empty: no file, text that is no JSON,
    or an empty mapping. *)
Definition store_empty (f : option file_content) : bool :=
  match f with
  | None => true
  | Some (Unparsable _) => true
  | Some (Parsed (JObj [])) => true
  | Some (Parsed _) => false
  end.

(** The state right after [PermissionManager(path)] found nothing to load. *)
Definition initial (st : state) : Prop :=
  requests st = [] /\ store_empty (storage st) = true.

(** ** Closed forms of the operations *)

(** A request after a transition to [target] by [actor] at time [t]. *)
Definition transitioned (target : PermissionStatus) (actor t : string)
    (note : option string) (r : PermissionRequest) : PermissionRequest :=
  mkRequest (request_id r) (requester r) (data_source r) (purpose r) target
            (created_at r) t (Some actor)
            (if truthy note then note else notes r).

(** The state after [n] clock readings, with mapping [d] written to the file
    and [entry] logged after the save. *)
Definition committed (n : nat) (d : dict PermissionRequest) (entry : log_record)
    (st : state) : state :=
  mkState (storage_path st) d (Some (Parsed (dump_requests d))) (clock st)
          (n + ticks st)
          (log st ++ [mkLog INFO "Saved %d permission requests to %s"
                         [ArgInt (List.length d); ArgStr (storage_path st)]]
                  ++ [entry]).

Definition not_found (rid : string) : exn :=
  KeyError ("Permission request " ++ rid ++ " not found").

Definition invalid_transition (verb rid : string) (s : PermissionStatus) : exn :=
  ValueError ("Cannot " ++ verb ++ " request " ++ rid ++ " - status is " ++ status_value s).

(** The identifier [_generate_request_id] builds from a reading and a count. *)
Definition make_id (t : datetime) (count : nat) : string :=
  "PR-" ++ strftime_compact t ++ "-" ++ format_d 4 count.

Definition created (st : state) (who : string) (src : DataSource) (why : string)
    (note : option string) : PermissionRequest :=
  mkRequest (make_id (clock st (ticks st)) (List.length (requests st) + 1))
            who src why PENDING
            (isoformat (clock st (S (ticks st))))
            (isoformat (clock st (S (S (ticks st)))))
            None note.


(** ** Statements shared by the theorems *)

(** The failure contract of a transition [op] that requires status
    [required]: KeyError exactly on an absent id, ValueError naming the current
    status exactly on a present request in another status, and no change of
    the state (registry, store file, clock, log) when it raises. *)
Definition transition_contract
    (op : string -> string -> option string -> M PermissionRequest)
    (verb : string) (required : PermissionStatus) : Prop :=
  forall st rid actor note,
    ((exists msg, fst (op rid actor note st) = Raise (KeyError msg))
     <-> get_request rid st = None) /\
    (forall r, get_request rid st = Some r ->
       ((exists msg, fst (op rid actor note st) = Raise (ValueError msg))
        <-> status r <> required) /\
       (status r <> required ->
        fst (op rid actor note st) = Raise (invalid_transition verb rid (status r)))) /\
    (forall e, fst (op rid actor note st) = Raise e ->
       snd (op rid actor note st) = st) /\
    fst (op rid actor note st) <> Untyped.

(** [del d[k]], used to speak of the stored requests other than one. *)
Fixpoint dict_remove {V} (k : string) (d : dict V) : dict V :=
  match d with
  | [] => []
  | (k', v) :: d' => if String.eqb k k' then d' else (k', v) :: dict_remove k d'
  end.

(** The test of [has_permission] on one request. *)
Definition grants (who : string) (src : DataSource) (request : PermissionRequest) : bool :=
  String.eqb (requester request) who &&
  source_eqb (data_source request) src &&
  status_eqb (status request) GRANTED.

Definition succeeded {A} (o : outcome A) : bool :=
  match o with
  | Return _ => true
  | _ => false
  end.

(** The file holds what [_save] wrote for the current mapping, or nothing
    was ever stored. *)
Definition consistent (st : state) : Prop :=
  (requests st = [] /\ store_empty (storage st) = true) \/
  storage st = Some (Parsed (dump_requests (requests st))).

(** The registry mapping is a dict and the file agrees with it. *)
Definition stable (st : state) : Prop :=
  NoDup (dict_keys (requests st)) /\ consistent st.

(** The [i]-th key (from 0) is an identifier generated with count [i + 1]. *)
Definition numbered (d : dict PermissionRequest) : Prop :=
  forall i k, nth_error (dict_keys d) i = Some k -> exists t, k = make_id t (i + 1).

(** The actor of the latest successful transition, per identifier. *)
Definition record_actor (a : action) (st : state) (cur : string -> option string)
    (k : string) : option string :=
  match a with
  | Create who src why note =>
      match fst (create_request who src why note st) with
      | Return r => if String.eqb k (request_id r) then None else cur k
      | _ => cur k
      end
  | Grant rid actor note =>
      if String.eqb k rid && succeeded (fst (grant_permission rid actor note st))
      then Some actor else cur k
  | Deny rid actor note =>
      if String.eqb k rid && succeeded (fst (deny_permission rid actor note st))
      then Some actor else cur k
  | Revoke rid actor note =>
      if String.eqb k rid && succeeded (fst (revoke_permission rid actor note st))
      then Some actor else cur k
  | ClearAll => None
  | Reopen => cur k
  end.

Fixpoint last_actor (acts : list action) (st : state) (cur : string -> option string)
    : string -> option string :=
  match acts with
  | [] => cur
  | a :: rest => last_actor rest (perform a st) (record_actor a st cur)
  end.

(** Digit strings, for the analysis of generated identifiers. *)
Definition is_digit (c : ascii) : bool :=
  match DecimalString.uint_of_char c (Some Nil) with
  | Some _ => true
  | None => false
  end.

Fixpoint all_digits (s : string) : bool :=
  match s with
  | EmptyString => true
  | String c s' => is_digit c && all_digits s'
  end.

Definition parse_count (s : string) : option nat :=
  option_map Nat.of_uint (NilEmpty.uint_of_string s).

(** ** Concrete runs used as examples *)

(** A clock that advances one microsecond per reading within one second. *)
Definition clock_us (n : nat) : datetime := mkDatetime 2026 11 3 12 0 0 n.

(** A clock stepped back by one second after its third reading. *)
Definition clock_stepped_back (n : nat) : datetime :=
  if Nat.ltb n 3 then mkDatetime 2026 11 3 12 0 1 0 else mkDatetime 2026 11 3 12 0 0 0.

Definition new_state (c : nat -> datetime) : state :=
  mkState "data/permissions.json" [] None c 0 [].

(** A store file holding one pending request dated in the year 2999. *)
Definition store_future : file_content :=
  Parsed (JObj [("PR-29990101000000-0001",
                 JObj [("request_id", JStr "PR-29990101000000-0001");
                       ("requester", JStr "alice");
                       ("data_source", JStr "world_bank_api");
                       ("purpose", JStr "research");
                       ("status", JStr "pending");
                       ("created_at", JStr "2999-01-01T00:00:00+00:00");
                       ("updated_at", JStr "2999-01-01T00:00:00+00:00");
                       ("granted_by", JNull);
                       ("notes", JNull)])]).

Definition state_future : state :=
  snd (init (mkState "data/permissions.json" [] (Some store_future) clock_us 0 [])).

(** One request created on a new registry. *)
Definition state_one (c : nat -> datetime) (note : option string) : state :=
  snd (create_request "alice" WORLD_BANK_API "research" note (new_state c)).

Definition id1 : string := "PR-20261103120000-0001".
Definition id2 : string := "PR-20261103120000-0002".

(** Two requests of the same requester for the same source, both granted. *)
Definition state_two_granted : state :=
  run [Create "alice" WORLD_BANK_API "research" None;
       Create "alice" WORLD_BANK_API "teaching" None;
       Grant id1 "admin" None;
       Grant id2 "admin" None] (new_state clock_us).

(** The request of [state_one clock_us None] once granted by admin, and the
    state holding it. *)
Definition granted_one : PermissionRequest :=
  transitioned GRANTED "admin" (isoformat (clock_us 3)) None
               (created (new_state clock_us) "alice" WORLD_BANK_API "research" None).

Definition state_granted : state :=
  snd (grant_permission id1 "admin" None (state_one clock_us None)).

Definition revoked_one : PermissionRequest :=
  transitioned REVOKED "security" (isoformat (clock_us 4)) None granted_one.

(** A new manager about to be constructed on an existing store file. *)
Definition state_with_store (f : file_content) : state :=
  mkState "data/permissions.json" [] (Some f) clock_us 0 [].

(** Valid JSON of the wrong shape: no mapping at the top, an entry that is
    no object, an entry without the fields of a request. *)
Definition store_list : file_content := Parsed (JArr []).

Definition store_scalar_entry : file_content := Parsed (JObj [("PR-1", JInt "5")]).

Definition store_short_entry : file_content :=
  Parsed (JObj [("PR-1", JObj [("data_source", JStr "custom");
                               ("status", JStr "pending")])]).

Definition store_bad_status : file_content :=
  Parsed (JObj [("PR-1", JObj [("data_source", JStr "custom");
                               ("status", JStr "archived")])]).

(** Operations that delete nothing. *)
Definition keeps_records (a : action) : bool :=
  match a with
  | ClearAll => false
  | _ => true
  end.


(** What holds of every state a new registry can reach. *)
Definition reachable_invariant (st : state) : Prop :=
  stable st /\ numbered (requests st).

(** A clock that stays within one second. *)
Definition clock_same_second (n : nat) : datetime := mkDatetime 2026 11 3 12 0 0 0.

(** The request of [state_one clock_us None] once denied by admin, and the
    operations leading there. *)
Definition denied_one : PermissionRequest :=
  transitioned DENIED "admin" (isoformat (clock_us 3)) (Some "no")
               (created (new_state clock_us) "alice" WORLD_BANK_API "research" None).

Definition deny_first : list action :=
  [Create "alice" WORLD_BANK_API "research" None; Deny id1 "admin" (Some "no")].

(** The property that [granted_by] records the latest actor, and is unset
    exactly on pending requests. *)
Definition actor_recorded (st : state) (cur : string -> option string) : Prop :=
  forall k r,
    get_request k st = Some r ->
    granted_by r = cur k /\ (granted_by r = None <-> status r = PENDING).

(** ** The demonstration driver *)



(** ** Statements about queries and histories *)

(** The three optional filters of [list_requests] as one test. *)
Definition matches (by_status : option PermissionStatus) (by_source : option DataSource)
    (by_requester : option string) (r : PermissionRequest) : bool :=
  match by_status with Some s => status_eqb (status r) s | None => true end &&
  match by_source with Some s => source_eqb (data_source r) s | None => true end &&
  match by_requester with Some q => String.eqb (requester r) q | None => true end.

(** The lifecycle order: pending precedes every status, granted precedes
    revoked, and denied and revoked precede only themselves. *)
Definition status_le (a b : PermissionStatus) : bool :=
  match a, b with
  | PENDING, _ => true
  | GRANTED, GRANTED | GRANTED, REVOKED => true
  | DENIED, DENIED => true
  | REVOKED, REVOKED => true
  | _, _ => false
  end.

(** The fields no operation assigns after creation. *)
Definition same_identity (r r' : PermissionRequest) : Prop :=
  request_id r' = request_id r /\
  requester r' = requester r /\
  data_source r' = data_source r /\
  purpose r' = purpose r /\
  created_at r' = created_at r.

(** Every request is stored under its own identifier. *)
Definition keyed (d : dict PermissionRequest) : Prop :=
  forall k r, dict_get k d = Some r -> request_id r = k.


(** The renderings of successive readings never decrease, in the order
    Python compares strings. *)
Definition clock_nondecreasing (c : nat -> datetime) : Prop :=
  forall i j, i <= j -> String.leb (isoformat (c i)) (isoformat (c j)) = true.

(** Stored timestamps are renderings of readings already taken, the creation
    reading no later than the update reading. *)
Definition stamped (st : state) : Prop :=
  forall k r,
    get_request k st = Some r ->
    exists i j,
      i <= j /\ j < ticks st /\
      created_at r = isoformat (clock st i) /\
      updated_at r = isoformat (clock st j).

(** A clock that advances one second per reading until second 59. *)
Definition clock_seconds (n : nat) : datetime :=
  mkDatetime 2026 11 3 12 0 (Nat.min n 59) 0.
Ltac unfold_py :=
  unfold bind, ret, raise, modify, get_state, now_isoformat, now, _save,
         LOGGER_info, LOGGER_warning, transitioned, committed,
         set_notes, set_updated_at, set_granted_by, set_status,
         add_log, set_storage, set_requests, set_ticks;
  cbn -[String.append format_d strftime_compact isoformat source_value status_value].

Lemma state_eta st :
  mkState (storage_path st) (requests st) (storage st) (clock st) (ticks st) (log st) = st.
Proof. destruct st; reflexivity. Qed.

Lemma grant_permission_eq rid actor note st :
  grant_permission rid actor note st =
  match dict_get rid (requests st) with
  | None => (Raise (not_found rid), st)
  | Some r =>
      if status_eqb (status r) PENDING then
        let r' := transitioned GRANTED actor (isoformat (clock st (ticks st))) note r in
        (Return r',
         committed 1 (dict_set rid r' (requests st))
                   (mkLog INFO "Permission request %s granted by %s"
                          [ArgStr rid; ArgStr actor]) st)
      else (Raise (invalid_transition "grant" rid (status r)), st)
  end.
Proof.
  unfold grant_permission, bind, get_state.
  destruct (dict_get rid (requests st)) as [r|]; [|reflexivity].
  destruct (status_eqb (status r) PENDING); [|reflexivity].
  unfold_py. destruct (truthy note); rewrite <- app_assoc; reflexivity.
Qed.

Lemma deny_permission_eq rid actor note st :
  deny_permission rid actor note st =
  match dict_get rid (requests st) with
  | None => (Raise (not_found rid), st)
  | Some r =>
      if status_eqb (status r) PENDING then
        let r' := transitioned DENIED actor (isoformat (clock st (ticks st))) note r in
        (Return r',
         committed 1 (dict_set rid r' (requests st))
                   (mkLog INFO "Permission request %s denied by %s"
                          [ArgStr rid; ArgStr actor]) st)
      else (Raise (invalid_transition "deny" rid (status r)), st)
  end.
Proof.
  unfold deny_permission, bind, get_state.
  destruct (dict_get rid (requests st)) as [r|]; [|reflexivity].
  destruct (status_eqb (status r) PENDING); [|reflexivity].
  unfold_py. destruct (truthy note); rewrite <- app_assoc; reflexivity.
Qed.

Lemma revoke_permission_eq rid actor note st :
  revoke_permission rid actor note st =
  match dict_get rid (requests st) with
  | None => (Raise (not_found rid), st)
  | Some r =>
      if status_eqb (status r) GRANTED then
        let r' := transitioned REVOKED actor (isoformat (clock st (ticks st))) note r in
        (Return r',
         committed 1 (dict_set rid r' (requests st))
                   (mkLog INFO "Permission request %s revoked by %s"
                          [ArgStr rid; ArgStr actor]) st)
      else (Raise (invalid_transition "revoke" rid (status r)), st)
  end.
Proof.
  unfold revoke_permission, bind, get_state.
  destruct (dict_get rid (requests st)) as [r|]; [|reflexivity].
  destruct (status_eqb (status r) GRANTED); [|reflexivity].
  unfold_py. destruct (truthy note); rewrite <- app_assoc; reflexivity.
Qed.

Lemma create_request_eq who src why note st :
  create_request who src why note st =
  let r := created st who src why note in
  (Return r,
   committed 3 (dict_set (request_id r) r (requests st))
             (mkLog INFO "Created permission request %s for %s by %s"
                    [ArgStr (request_id r); ArgStr (source_value src); ArgStr who]) st).
Proof.
  unfold create_request, _generate_request_id, created, make_id. unfold_py.
  rewrite <- app_assoc. reflexivity.
Qed.

Lemma clear_all_eq st :
  clear_all st =
  (Return tt,
   mkState (storage_path st) [] None (clock st) (ticks st)
           (log st ++ [mkLog INFO "Cleared all permission requests" []])).
Proof.
  unfold clear_all. unfold_py.
  destruct (storage st); reflexivity.
Qed.

(** ** Dicts *)

Lemma dict_get_set_same {V} k (v : V) d : dict_get k (dict_set k v d) = Some v.
Proof.
  induction d as [|[k' v'] d IH]; simpl.
  - now rewrite String.eqb_refl.
  - destruct (String.eqb k k') eqn:E; simpl; rewrite E; auto.
Qed.

Lemma dict_get_set_other {V} k k' (v : V) d :
  k <> k' -> dict_get k' (dict_set k v d) = dict_get k' d.
Proof.
  intros Hne. induction d as [|[k0 v0] d IH]; simpl.
  - destruct (String.eqb k' k) eqn:E; auto.
    apply String.eqb_eq in E. congruence.
  - destruct (String.eqb k k0) eqn:E; simpl.
    + apply String.eqb_eq in E. subst k0.
      destruct (String.eqb k' k) eqn:E'; auto.
      apply String.eqb_eq in E'. congruence.
    + now rewrite IH.
Qed.

Lemma dict_get_None_iff {V} k (d : dict V) :
  dict_get k d = None <-> ~ In k (dict_keys d).
Proof.
  induction d as [|[k' v'] d IH]; simpl.
  - tauto.
  - destruct (String.eqb k k') eqn:E.
    + apply String.eqb_eq in E. subst. split; [discriminate | tauto].
    + apply String.eqb_neq in E. rewrite IH. split.
      * intros H [?|?]; [congruence | auto].
      * tauto.
Qed.

Lemma dict_get_In {V} k (v : V) d : dict_get k d = Some v -> In (k, v) d.
Proof.
  induction d as [|[k' v'] d IH]; simpl; [discriminate|].
  destruct (String.eqb k k') eqn:E.
  - apply String.eqb_eq in E. intros [= ->]. subst. now left.
  - auto.
Qed.

Lemma dict_keys_set_present {V} k (v v0 : V) d :
  dict_get k d = Some v0 -> dict_keys (dict_set k v d) = dict_keys d.
Proof.
  induction d as [|[k' v'] d IH]; simpl; [discriminate|].
  destruct (String.eqb k k') eqn:E; simpl; [reflexivity|].
  intros H. now rewrite IH.
Qed.

Lemma dict_set_absent {V} k (v : V) d :
  dict_get k d = None -> dict_set k v d = (d ++ [(k, v)])%list.
Proof.
  induction d as [|[k' v'] d IH]; simpl; [reflexivity|].
  destruct (String.eqb k k') eqn:E; [discriminate|].
  intros H. now rewrite IH.
Qed.

Lemma status_eqb_eq a b : status_eqb a b = true <-> a = b.
Proof. destruct a, b; simpl; split; congruence. Qed.

Lemma status_eqb_neq a b : status_eqb a b = false <-> a <> b.
Proof. destruct a, b; simpl; split; congruence. Qed.

Lemma source_eqb_eq a b : source_eqb a b = true <-> a = b.
Proof. destruct a, b; simpl; split; congruence. Qed.

(** ** C1: failures of grant, deny and revoke *)

Ltac contract_cases r :=
  unfold get_request;
  match goal with
  | |- context [dict_get ?k ?d] => destruct (dict_get k d) as [r|] eqn:?
  end.

Lemma transition_contract_of
    (op : string -> string -> option string -> M PermissionRequest)
    verb required target fmt_ :
  (forall rid actor note st,
     op rid actor note st =
     match dict_get rid (requests st) with
     | None => (Raise (not_found rid), st)
     | Some r =>
         if status_eqb (status r) required then
           let r' := transitioned target actor (isoformat (clock st (ticks st))) note r in
           (Return r',
            committed 1 (dict_set rid r' (requests st))
                      (mkLog INFO fmt_ [ArgStr rid; ArgStr actor]) st)
         else (Raise (invalid_transition verb rid (status r)), st)
     end) ->
  transition_contract op verb required.
Proof.
  intros Heq st rid actor note. rewrite Heq. clear Heq.
  unfold get_request.
  destruct (dict_get rid (requests st)) as [r|] eqn:Hget.
  - destruct (status_eqb (status r) required) eqn:Hs; cbn [fst snd].
    + apply status_eqb_eq in Hs.
      split; [|split; [|split]]; try discriminate.
      * split; [intros [msg ?]|]; discriminate.
      * intros r0 [= <-]. split; [split|]; try congruence.
        intros [msg ?]; discriminate.
    + apply status_eqb_neq in Hs.
      split; [|split; [|split]]; try discriminate; try reflexivity.
      * split; [intros [msg ?]|]; discriminate.
      * intros r0 [= <-]. split; [split|]; auto.
        intros _. unfold invalid_transition. eauto.
  - cbn [fst snd]. split; [|split; [|split]]; try discriminate; try reflexivity.
    split; auto. intros _. unfold not_found. eauto.
Qed.

(** C1: grant, deny and revoke raise KeyError exactly when the id is not
    stored; on a stored request they raise ValueError, with a message naming
    the current status, exactly when that status is not the required one
    (pending for grant and deny, granted for revoke); and an operation that
    raises leaves the registry and the store file as they were. *)
Theorem transitions_fail_cleanly :
  transition_contract grant_permission "grant" PENDING /\
  transition_contract deny_permission "deny" PENDING /\
  transition_contract revoke_permission "revoke" GRANTED.
Proof.
  split; [|split].
  - eapply transition_contract_of. intros. apply grant_permission_eq.
  - eapply transition_contract_of. intros. apply deny_permission_eq.
  - eapply transition_contract_of. intros. apply revoke_permission_eq.
Qed.

(** ** C2: the effect of a grant *)

Lemma committed_lookup n d entry st k :
  get_request k (committed n d entry st) = dict_get k d.
Proof. reflexivity. Qed.

(** C2 (amended): granting a stored pending request returns it with status
    granted, [granted_by] the given actor and [updated_at] the clock reading
    taken by the grant; identifier, requester, source, purpose and
    [created_at] are kept, as are all other stored requests and the order of
    the keys.  [updated_at >= created_at] holds when that reading is not
    earlier than the stored [created_at]; the code compares no timestamps. *)
Theorem grant_pending_request (st : state) (rid actor : string)
    (note : option string) (r : PermissionRequest) :
  get_request rid st = Some r ->
  status r = PENDING ->
  exists r',
    fst (grant_permission rid actor note st) = Return r' /\
    get_request rid (snd (grant_permission rid actor note st)) = Some r' /\
    status r' = GRANTED /\
    granted_by r' = Some actor /\
    updated_at r' = isoformat (clock st (ticks st)) /\
    request_id r' = request_id r /\
    requester r' = requester r /\
    data_source r' = data_source r /\
    purpose r' = purpose r /\
    created_at r' = created_at r /\
    (forall k, k <> rid ->
       get_request k (snd (grant_permission rid actor note st)) = get_request k st) /\
    dict_keys (requests (snd (grant_permission rid actor note st)))
      = dict_keys (requests st) /\
    (String.leb (created_at r) (isoformat (clock st (ticks st))) = true ->
     String.leb (created_at r') (updated_at r') = true).
Proof.
  unfold get_request. intros Hget Hs.
  rewrite grant_permission_eq, Hget, Hs. cbn [status_eqb fst snd].
  eexists. split; [reflexivity|].
  cbn [committed requests]. rewrite dict_get_set_same.
  repeat split; try reflexivity.
  - intros k Hk. now apply dict_get_set_other.
  - eapply dict_keys_set_present; eauto.
  - auto.
Qed.

Lemma grant_pending_request_witness :
  exists r',
    fst (grant_permission id1 "admin" None (state_one clock_us None)) = Return r' /\
    status r' = GRANTED /\
    String.leb (created_at r') (updated_at r') = true.
Proof.
  destruct (grant_pending_request (state_one clock_us None) id1 "admin" None
              (created (new_state clock_us) "alice" WORLD_BANK_API "research" None)
              eq_refl eq_refl)
    as (r' & H1 & _ & H3 & _ & _ & _ & _ & _ & _ & _ & _ & _ & H13).
  exists r'. split; [exact H1|]. split; [exact H3|]. apply H13. reflexivity.
Defined.

(** C2 fails as stated: a pending request read from a store file with a later
    [created_at], and a request granted after the clock was set back, both end
    with [updated_at] before [created_at]. *)
Lemma grant_updated_before_created :
  (exists r, get_request "PR-29990101000000-0001" state_future = Some r /\
             status r = PENDING) /\
  match fst (grant_permission "PR-29990101000000-0001" "admin" None state_future) with
  | Return r' => status r' = GRANTED /\ String.leb (created_at r') (updated_at r') = false
  | _ => False
  end /\
  (exists r, get_request "PR-20261103120001-0001" (state_one clock_stepped_back None) = Some r /\
             status r = PENDING) /\
  match fst (grant_permission "PR-20261103120001-0001" "admin" None
               (state_one clock_stepped_back None)) with
  | Return r' => status r' = GRANTED /\ String.leb (created_at r') (updated_at r') = false
  | _ => False
  end.
Proof.
  split; [eexists; split; reflexivity|].
  split; [vm_compute; split; reflexivity|].
  split; [eexists; split; reflexivity|].
  vm_compute; split; reflexivity.
Qed.

(** ** C7: what create returns *)

(** C7 (amended): create always returns a stored request with status pending;
    [created_at] and [updated_at] are two successive clock readings, taken
    after the reading used for the identifier, and are equal when those two
    readings are. *)
Theorem create_request_pending (st : state) (who : string) (src : DataSource)
    (why : string) (note : option string) :
  exists r,
    fst (create_request who src why note st) = Return r /\
    get_request (request_id r) (snd (create_request who src why note st)) = Some r /\
    status r = PENDING /\
    created_at r = isoformat (clock st (1 + ticks st)) /\
    updated_at r = isoformat (clock st (2 + ticks st)) /\
    (clock st (1 + ticks st) = clock st (2 + ticks st) -> created_at r = updated_at r).
Proof.
  rewrite create_request_eq. cbv zeta. cbn [fst snd]. eexists. split; [reflexivity|].
  rewrite committed_lookup, dict_get_set_same.
  repeat split. cbn. intros ->. reflexivity.
Qed.

Lemma create_request_pending_witness :
  exists r,
    fst (create_request "alice" CUSTOM "research" None
           (new_state (fun _ => mkDatetime 2026 11 3 12 0 0 0))) = Return r /\
    created_at r = updated_at r.
Proof.
  destruct (create_request_pending (new_state (fun _ => mkDatetime 2026 11 3 12 0 0 0))
              "alice" CUSTOM "research" None)
    as (r & H1 & _ & _ & _ & _ & H6).
  exists r. split; [exact H1|]. apply H6. reflexivity.
Defined.

(** C7 fails as stated: with a clock that advances between two readings, the
    request create returns has different [created_at] and [updated_at]. *)
Lemma create_timestamps_differ :
  match fst (create_request "alice" WORLD_BANK_API "research" None (new_state clock_us)) with
  | Return r =>
      status r = PENDING /\
      created_at r = "2026-11-03T12:00:00.000001+00:00" /\
      updated_at r = "2026-11-03T12:00:00.000002+00:00" /\
      created_at r <> updated_at r
  | _ => False
  end.
Proof. vm_compute. repeat split. discriminate. Qed.

(** ** C9: notes on a transition *)

(** C9 (amended): a successful grant, deny or revoke replaces the notes of the
    request by the supplied value exactly when that value is a non-empty
    string; with no notes, or with the empty string, the stored notes are
    kept. *)
Theorem transition_notes (st : state) (rid actor : string) (note : option string)
    (r r' : PermissionRequest)
    (op : string -> string -> option string -> M PermissionRequest) :
  In op [grant_permission; deny_permission; revoke_permission] ->
  get_request rid st = Some r ->
  fst (op rid actor note st) = Return r' ->
  notes r' = (if truthy note then note else notes r) /\
  get_request rid (snd (op rid actor note st)) = Some r' /\
  (truthy note = true <-> exists s, note = Some s /\ s <> "").
Proof.
  unfold get_request. intros Hop Hget Hret.
  assert (Ht : truthy note = true <-> exists s, note = Some s /\ s <> "").
  { destruct note as [s|]; simpl.
    - rewrite negb_true_iff, String.eqb_neq. split; eauto.
      intros (s' & [= <-] & ?); auto.
    - split; [discriminate|]. intros (s' & ? & _); discriminate. }
  destruct Hop as [<-|[<-|[<-|[]]]];
    [ rewrite grant_permission_eq in *
    | rewrite deny_permission_eq in *
    | rewrite revoke_permission_eq in * ];
    rewrite Hget in *;
    match goal with
    | H : context [status_eqb ?a ?b] |- _ => destruct (status_eqb a b)
    end; cbn [fst snd] in *; try discriminate;
    injection Hret as <-;
    (split; [reflexivity|]; split; [|exact Ht]);
    cbn [committed requests]; apply dict_get_set_same.
Qed.

Lemma transition_notes_witness :
  notes granted_one = None /\
  get_request id1 state_granted = Some granted_one.
Proof.
  destruct (transition_notes (state_one clock_us None) id1 "admin" None
              (created (new_state clock_us) "alice" WORLD_BANK_API "research" None)
              granted_one grant_permission
              (or_introl eq_refl) eq_refl eq_refl) as (H1 & H2 & _).
  split; [exact H1 | exact H2].
Defined.

(** C9 fails as stated: notes supplied as the empty string do not replace the
    stored notes. *)
Lemma empty_notes_not_stored :
  (exists r, get_request id1 (state_one clock_us (Some "old")) = Some r /\
             notes r = Some "old") /\
  match fst (grant_permission id1 "admin" (Some "") (state_one clock_us (Some "old"))) with
  | Return r' => notes r' = Some "old" /\ notes r' <> Some ""
  | _ => False
  end.
Proof.
  split; [eexists; split; reflexivity|].
  vm_compute. split; [reflexivity | discriminate].
Qed.

(** ** C3: has_permission after grant and after revoke *)

Lemma existsb_values_set {V} (f : V -> bool) k (v v0 : V) d :
  dict_get k d = Some v0 ->
  existsb f (dict_values (dict_set k v d))
  = f v || existsb f (dict_values (dict_remove k d)).
Proof.
  induction d as [|[k' v'] d IH]; simpl; [discriminate|].
  destruct (String.eqb k k') eqn:E; simpl; [reflexivity|].
  intros H. rewrite (IH H).
  destruct (f v), (f v'); reflexivity.
Qed.

Lemma grants_self r :
  grants (requester r) (data_source r) r = status_eqb (status r) GRANTED.
Proof.
  unfold grants. rewrite String.eqb_refl.
  replace (source_eqb (data_source r) (data_source r)) with true; [reflexivity|].
  symmetry. now apply source_eqb_eq.
Qed.

(** C3 (amended): right after a successful grant of a request,
    [has_permission] is true for its requester and source; right after a
    successful revoke of a request it is true exactly when some other stored
    request of that requester for that source is granted, so it is false when
    there is none. *)
Theorem permission_after_grant_and_revoke :
  (forall st rid actor note r',
     fst (grant_permission rid actor note st) = Return r' ->
     has_permission (requester r') (data_source r')
                    (snd (grant_permission rid actor note st)) = true) /\
  (forall st rid actor note r',
     fst (revoke_permission rid actor note st) = Return r' ->
     has_permission (requester r') (data_source r')
                    (snd (revoke_permission rid actor note st))
     = existsb (grants (requester r') (data_source r'))
               (dict_values (dict_remove rid (requests st)))).
Proof.
  split; intros st rid actor note r'.
  - rewrite grant_permission_eq.
    destruct (dict_get rid (requests st)) as [r|] eqn:Hget; [|discriminate].
    destruct (status_eqb (status r) PENDING); [|discriminate].
    cbn [fst snd]. intros [= <-].
    unfold has_permission. cbn [committed requests].
    change (fun request => _) with
      (grants (requester (transitioned GRANTED actor (isoformat (clock st (ticks st))) note r))
              (data_source (transitioned GRANTED actor (isoformat (clock st (ticks st))) note r))).
    rewrite (existsb_values_set _ _ _ _ _ Hget), grants_self. reflexivity.
  - rewrite revoke_permission_eq.
    destruct (dict_get rid (requests st)) as [r|] eqn:Hget; [|discriminate].
    destruct (status_eqb (status r) GRANTED); [|discriminate].
    cbn [fst snd]. intros [= <-].
    unfold has_permission. cbn [committed requests].
    change (fun request => _) with
      (grants (requester (transitioned REVOKED actor (isoformat (clock st (ticks st))) note r))
              (data_source (transitioned REVOKED actor (isoformat (clock st (ticks st))) note r))).
    rewrite (existsb_values_set _ _ _ _ _ Hget), grants_self. reflexivity.
Qed.

Lemma permission_after_grant_and_revoke_witness :
  has_permission "alice" WORLD_BANK_API state_granted = true /\
  has_permission "alice" WORLD_BANK_API
                 (snd (revoke_permission id1 "security" None state_granted)) = false.
Proof.
  destruct permission_after_grant_and_revoke as [Hg Hr]. split.
  - exact (Hg (state_one clock_us None) id1 "admin" None granted_one eq_refl).
  - exact (Hr state_granted id1 "security" None revoked_one eq_refl).
Defined.

(** C3 fails as stated: with two granted requests of the same requester for
    the same source, revoking one leaves [has_permission] true. *)
Lemma permission_survives_revoke :
  match fst (revoke_permission id2 "security" None state_two_granted) with
  | Return r =>
      request_id r = id2 /\ status r = REVOKED /\
      has_permission (requester r) (data_source r)
                     (snd (revoke_permission id2 "security" None state_two_granted)) = true
  | _ => False
  end.
Proof. vm_compute. repeat split. Qed.

(** ** C8: construction on a damaged store *)

Lemma init_eq st : init st = _load (set_requests [] st).
Proof. reflexivity. Qed.



(** Text that is no JSON, and an entry with an unknown status, are recovered
    from: a warning is logged and the registry starts empty. *)
Lemma init_recovers_from_caught :
  (forall msg,
     fst (init (state_with_store (Unparsable msg))) = Return tt /\
     requests (snd (init (state_with_store (Unparsable msg)))) = [] /\
     map level (log (snd (init (state_with_store (Unparsable msg))))) = [WARNING]) /\
  fst (init (state_with_store store_bad_status)) = Return tt /\
  requests (snd (init (state_with_store store_bad_status))) = [] /\
  log (snd (init (state_with_store store_bad_status)))
  = [mkLog WARNING "Failed to load permissions: %s"
           [ArgExn (EnumValueError (JStr "archived") "PermissionStatus")]].
Proof. repeat split. Qed.

(** C8, at the failing inputs: on a store file that holds valid JSON of the
    wrong shape the constructor raises (AttributeError for a top-level list,
    TypeError for an entry that is no object or lacks fields), logs nothing
    and yields no registry. *)
Theorem init_raises_on_misshapen_store :
  init (state_with_store store_list)
  = (Raise (AttributeError "'list' object has no attribute 'items'"),
     state_with_store store_list) /\
  init (state_with_store store_scalar_entry)
  = (Raise (TypeError "'int' object is not subscriptable"),
     state_with_store store_scalar_entry) /\
  init (state_with_store store_short_entry)
  = (Raise (TypeError
       "PermissionRequest.__init__() missing 3 required positional arguments: 'request_id', 'requester', and 'purpose'"),
     state_with_store store_short_entry).
Proof. repeat split. Qed.

(** ** C5: the store round-trips *)

Lemma from_dict_to_dict r st : from_dict (to_dict r) st = (Return r, st).
Proof.
  destruct r as [i q ds p s c u g n].
  destruct ds, s, g, n; reflexivity.
Qed.

Lemma load_items_dump d : forall acc st,
  load_items (map (fun kv => (fst kv, to_dict (snd kv))) d) acc st
  = (Return (fold_left (fun a kv => dict_set (fst kv) (snd kv) a) d acc), st).
Proof.
  induction d as [|[k r] d IH]; intros acc st; [reflexivity|].
  cbn [map load_items fst snd fold_left]. unfold bind.
  rewrite from_dict_to_dict. apply IH.
Qed.

Lemma dict_keys_app {V} (a b : dict V) :
  dict_keys (a ++ b)%list = (dict_keys a ++ dict_keys b)%list.
Proof. apply map_app. Qed.

Lemma fold_dict_set_nodup (d : dict PermissionRequest) : forall acc,
  NoDup (dict_keys acc ++ dict_keys d) ->
  fold_left (fun a kv => dict_set (fst kv) (snd kv) a) d acc = (acc ++ d)%list.
Proof.
  induction d as [|[k r] d IH]; intros acc Hnd; cbn [fold_left fst snd].
  - now rewrite app_nil_r.
  - cbn [dict_keys map fst] in Hnd.
    assert (Hk : dict_get k acc = None).
    { apply dict_get_None_iff. intros Hin.
      apply NoDup_remove_2 in Hnd. apply Hnd, in_or_app. now left. }
    rewrite (dict_set_absent _ _ _ Hk), IH.
    + now rewrite <- app_assoc.
    + rewrite dict_keys_app. cbn [dict_keys map fst]. now rewrite <- app_assoc.
Qed.

Lemma nodup_dict_set {V} k (v : V) d :
  NoDup (dict_keys d) -> NoDup (dict_keys (dict_set k v d)).
Proof.
  intros Hnd. destruct (dict_get k d) as [v0|] eqn:Hget.
  - now rewrite (dict_keys_set_present _ _ _ _ Hget).
  - rewrite (dict_set_absent _ _ _ Hget), dict_keys_app. cbn.
    apply NoDup_app; [exact Hnd | repeat constructor; simpl; tauto |].
    intros x Hx [<-|[]]. now apply dict_get_None_iff in Hget.
Qed.

Ltac unfold_load :=
  unfold try_except, bind, json_loads, json_items, raise, ret, modify,
         LOGGER_info, LOGGER_warning, add_log, set_requests;
  cbn.

Lemma init_stable st :
  stable st ->
  exists entry,
    init st = (Return tt,
               mkState (storage_path st) (requests st) (storage st) (clock st)
                       (ticks st) (log st ++ entry)).
Proof.
  intros [Hnd [[Hreq Hemp]|Hsto]]; rewrite init_eq; unfold _load, bind at 1, get_state;
    cbn [set_requests storage].
  - rewrite Hreq. destruct (storage st) as [[msg|data]|] eqn:Hs.
    + eexists. unfold_load. rewrite Hs. reflexivity.
    + destruct data as [| | | | | |items]; try discriminate.
      destruct items; try discriminate. eexists. unfold_load. rewrite Hs. reflexivity.
    + exists []. unfold ret, set_requests. rewrite app_nil_r, Hs. reflexivity.
  - rewrite Hsto. unfold try_except, bind at 1. cbn [json_loads ret dump_requests].
    unfold bind at 1. cbn [json_items ret]. unfold bind at 1.
    unfold dump_requests at 1. unfold json_items, ret.
    rewrite load_items_dump, (fold_dict_set_nodup _ [] Hnd). cbn [app].
    eexists. unfold_load. rewrite Hsto. reflexivity.
Qed.

Lemma run_invariant (P : state -> Prop) :
  (forall a st, P st -> P (perform a st)) ->
  forall acts st, P st -> P (run acts st).
Proof.
  intros Hstep acts. unfold run.
  induction acts as [|a acts IH]; intros st HP; cbn [fold_left]; auto.
Qed.

(** The cases of one operation: a transition either raises and changes
    nothing or rewrites one stored request. *)
Ltac step_cases a st :=
  destruct a as [who src why note | rid actor note | rid actor note
                 | rid actor note | | ];
  cbn [perform];
  [ rewrite create_request_eq; cbv zeta; cbn [fst snd]
  | rewrite grant_permission_eq;
    destruct (dict_get rid (requests st)) as [r0|] eqn:Hget0;
    [destruct (status_eqb (status r0) PENDING) eqn:Hst0|]; cbn [fst snd]
  | rewrite deny_permission_eq;
    destruct (dict_get rid (requests st)) as [r0|] eqn:Hget0;
    [destruct (status_eqb (status r0) PENDING) eqn:Hst0|]; cbn [fst snd]
  | rewrite revoke_permission_eq;
    destruct (dict_get rid (requests st)) as [r0|] eqn:Hget0;
    [destruct (status_eqb (status r0) GRANTED) eqn:Hst0|]; cbn [fst snd]
  | rewrite clear_all_eq; cbn [fst snd]
  | ].

Lemma committed_stable n d entry st : NoDup (dict_keys d) -> stable (committed n d entry st).
Proof. intros Hnd. split; [exact Hnd | right; reflexivity]. Qed.

Lemma perform_stable a st : stable st -> stable (perform a st).
Proof.
  intros Hst. pose proof Hst as [Hnd Hc].
  step_cases a st; auto; try (apply committed_stable, nodup_dict_set, Hnd).
  - split; [constructor | left; split; reflexivity].
  - destruct (init_stable st Hst) as [entry ->]. cbn [snd].
    split; [exact Hnd | exact Hc].
Qed.

Lemma initial_stable st : initial st -> stable st.
Proof.
  intros [Hreq Hemp]. split.
  - rewrite Hreq. constructor.
  - left. now split.
Qed.



(** ** Generated identifiers *)

Lemma all_digits_app a b : all_digits (a ++ b) = all_digits a && all_digits b.
Proof.
  induction a as [|c a IH]; simpl; [reflexivity|].
  now rewrite IH, andb_assoc.
Qed.

Lemma all_digits_uint d : all_digits (NilEmpty.string_of_uint d) = true.
Proof. induction d; simpl; auto. Qed.

Lemma all_digits_zeros k : all_digits (zeros k) = true.
Proof. induction k; simpl; auto. Qed.

Lemma all_digits_format w n : all_digits (format_d w n) = true.
Proof.
  unfold format_d, digits.
  now rewrite all_digits_app, all_digits_zeros, all_digits_uint.
Qed.

Lemma all_digits_strftime t : all_digits (strftime_compact t) = true.
Proof.
  unfold strftime_compact.
  now rewrite !all_digits_app, !all_digits_format.
Qed.

(** Two digit strings followed by a dash and more: the dash splits both at
    the same place. *)
Lemma split_at_dash a : forall a' b b',
  all_digits a = true -> all_digits a' = true ->
  a ++ String "-" b = a' ++ String "-" b' ->
  a = a' /\ b = b'.
Proof.
  induction a as [|c a IH]; intros [|c' a'] b b' Ha Ha' Heq; simpl in *.
  - injection Heq as <-. auto.
  - injection Heq as <- _. discriminate.
  - injection Heq as -> _. discriminate.
  - injection Heq as <- Heq.
    apply andb_true_iff in Ha as [_ Ha]. apply andb_true_iff in Ha' as [_ Ha'].
    destruct (IH _ _ _ Ha Ha' Heq) as [-> ->]. auto.
Qed.

Lemma uint_of_string_zeros k s :
  NilEmpty.uint_of_string (zeros k ++ s)
  = option_map (Nat.iter k D0) (NilEmpty.uint_of_string s).
Proof.
  induction k as [|k IH]; simpl.
  - now destruct (NilEmpty.uint_of_string s).
  - rewrite IH. now destruct (NilEmpty.uint_of_string s).
Qed.

Lemma of_uint_leading_zeros k d : Nat.of_uint (Nat.iter k D0 d) = Nat.of_uint d.
Proof.
  induction k as [|k IH]; simpl; [reflexivity|].
  exact IH.
Qed.

Lemma parse_count_format w n : parse_count (format_d w n) = Some n.
Proof.
  unfold parse_count, format_d, digits.
  rewrite uint_of_string_zeros, NilEmpty.usu. simpl.
  now rewrite of_uint_leading_zeros, Unsigned.of_to.
Qed.

Lemma format_d_inj w n n' : format_d w n = format_d w n' -> n = n'.
Proof.
  intros H. apply (f_equal parse_count) in H.
  rewrite !parse_count_format in H. congruence.
Qed.

Lemma make_id_inj t t' c c' :
  make_id t c = make_id t' c' -> strftime_compact t = strftime_compact t' /\ c = c'.
Proof.
  unfold make_id. intros H. injection H as H.
  apply split_at_dash in H; try apply all_digits_strftime.
  destruct H as [Ht Hc]. split; [exact Ht|]. now apply format_d_inj in Hc.
Qed.

Lemma numbered_fresh d t :
  numbered d -> dict_get (make_id t (List.length d + 1)) d = None.
Proof.
  intros Hnum. apply dict_get_None_iff. intros Hin.
  apply In_nth_error in Hin as [i Hi].
  assert (Hlt : i < List.length (dict_keys d)).
  { apply nth_error_Some. congruence. }
  destruct (Hnum _ _ Hi) as [t' Heq].
  apply make_id_inj in Heq as [_ Heq].
  unfold dict_keys in Hlt. rewrite length_map in Hlt. lia.
Qed.

Lemma numbered_append d t r :
  numbered d -> numbered (d ++ [(make_id t (List.length d + 1), r)])%list.
Proof.
  intros Hnum i k. rewrite dict_keys_app.
  assert (Hlen : List.length (dict_keys d) = List.length d) by apply length_map.
  destruct (Nat.lt_ge_cases i (List.length (dict_keys d))) as [Hlt|Hge].
  - rewrite nth_error_app1 by exact Hlt. apply Hnum.
  - rewrite nth_error_app2 by exact Hge.
    destruct (i - List.length (dict_keys d)) as [|j] eqn:Hd; simpl.
    + intros [= <-]. exists t. f_equal. lia.
    + destruct j; discriminate.
Qed.

Lemma numbered_set_present d k r r0 :
  dict_get k d = Some r0 -> numbered d -> numbered (dict_set k r d).
Proof.
  intros Hget Hnum i k'. rewrite (dict_keys_set_present _ _ _ _ Hget). apply Hnum.
Qed.

Lemma perform_reachable_invariant a st :
  reachable_invariant st -> reachable_invariant (perform a st).
Proof.
  intros [Hst Hnum]. split; [now apply perform_stable|].
  step_cases a st; auto;
    try (cbn [committed requests]; eapply numbered_set_present; eassumption).
  - cbn [committed requests created request_id].
    rewrite dict_set_absent by now apply numbered_fresh.
    now apply numbered_append.
  - intros i k. destruct i; discriminate.
  - destruct (init_stable st Hst) as [entry ->]. exact Hnum.
Qed.

Lemma initial_reachable_invariant st : initial st -> reachable_invariant st.
Proof.
  intros Hinit. split; [now apply initial_stable|].
  destruct Hinit as [-> _]. intros i k. destruct i; discriminate.
Qed.

Lemma run_reachable_invariant st0 acts :
  initial st0 -> reachable_invariant (run acts st0).
Proof.
  intros Hinit. apply run_invariant.
  - exact perform_reachable_invariant.
  - now apply initial_reachable_invariant.
Qed.

(** ** C4: identifiers returned by create *)

(** C4 (amended): in every state a new registry reaches by any operations,
    [clear_all] and reopening included, create returns a request whose
    identifier is not among the identifiers stored at that moment, that is,
    stored since the last [clear_all]. *)
Theorem created_id_not_stored (st0 : state) (acts : list action)
    (who : string) (src : DataSource) (why : string) (note : option string) :
  initial st0 ->
  exists r,
    fst (create_request who src why note (run acts st0)) = Return r /\
    ~ In (request_id r) (dict_keys (requests (run acts st0))) /\
    get_request (request_id r) (run acts st0) = None /\
    get_request (request_id r)
                (snd (create_request who src why note (run acts st0))) = Some r.
Proof.
  intros Hinit. destruct (run_reachable_invariant st0 acts Hinit) as [_ Hnum].
  rewrite create_request_eq. cbv zeta. cbn [fst snd].
  eexists. split; [reflexivity|].
  cbn [created request_id committed requests]. unfold get_request.
  pose proof (numbered_fresh _ (clock (run acts st0) (ticks (run acts st0))) Hnum) as Hfresh.
  split; [now apply dict_get_None_iff|]. split; [exact Hfresh|].
  cbn [committed requests]. apply dict_get_set_same.
Qed.

Lemma created_id_not_stored_witness :
  exists r,
    fst (create_request "bob" CUSTOM "audit" None state_two_granted) = Return r /\
    ~ In (request_id r) [id1; id2].
Proof.
  destruct (created_id_not_stored (new_state clock_us)
              [Create "alice" WORLD_BANK_API "research" None;
               Create "alice" WORLD_BANK_API "teaching" None;
               Grant id1 "admin" None;
               Grant id2 "admin" None]
              "bob" CUSTOM "audit" None (conj eq_refl eq_refl))
    as (r & H1 & H2 & _).
  exists r. split; [exact H1 | exact H2].
Defined.

(** C4 fails as stated: a create, a [clear_all] and a second create within
    the same second return the same identifier, which was stored before. *)
Lemma id_reused_after_clear_all :
  match fst (create_request "alice" WORLD_BANK_API "research" None
               (new_state clock_same_second)) with
  | Return r1 =>
      In (request_id r1)
         (dict_keys (requests (run [Create "alice" WORLD_BANK_API "research" None]
                                   (new_state clock_same_second)))) /\
      match fst (create_request "bob" CUSTOM "audit" None
                   (run [Create "alice" WORLD_BANK_API "research" None; ClearAll]
                        (new_state clock_same_second))) with
      | Return r2 => request_id r2 = request_id r1
      | _ => False
      end
  | _ => False
  end.
Proof. vm_compute. split; [left|]; reflexivity. Qed.

(** ** C6: denied and revoked are final *)






(** ** C10: [granted_by] and the status *)

Lemma actor_recorded_step a st cur :
  is_lifecycle a = true ->
  actor_recorded st cur ->
  actor_recorded (perform a st) (record_actor a st cur).
Proof.
  unfold actor_recorded, get_request. intros Ha HQ k r.
  destruct a as [who src why note | rid actor note | rid actor note
                 | rid actor note | | ]; try discriminate;
    cbn [perform record_actor];
    [ rewrite create_request_eq; cbv zeta; cbn [fst snd committed requests]
    | rewrite grant_permission_eq | rewrite deny_permission_eq
    | rewrite revoke_permission_eq ].
  - cbn [created request_id].
    set (rid := make_id _ _).
    destruct (String.eqb_spec k rid) as [->|Hne].
    + rewrite dict_get_set_same. intros [= <-]. cbn. tauto.
    + rewrite dict_get_set_other by congruence. apply HQ.
  - destruct (dict_get rid (requests st)) as [r0|] eqn:Hget0;
      [destruct (status_eqb (status r0) PENDING)|]; cbn [fst snd succeeded];
      rewrite ?andb_false_r; try apply HQ.
    cbn [committed requests]. rewrite andb_true_r.
    destruct (String.eqb_spec k rid) as [->|Hne].
    + rewrite dict_get_set_same. intros [= <-]. cbn. split; [reflexivity|].
      split; discriminate.
    + rewrite dict_get_set_other by congruence. apply HQ.
  - destruct (dict_get rid (requests st)) as [r0|] eqn:Hget0;
      [destruct (status_eqb (status r0) PENDING)|]; cbn [fst snd succeeded];
      rewrite ?andb_false_r; try apply HQ.
    cbn [committed requests]. rewrite andb_true_r.
    destruct (String.eqb_spec k rid) as [->|Hne].
    + rewrite dict_get_set_same. intros [= <-]. cbn. split; [reflexivity|].
      split; discriminate.
    + rewrite dict_get_set_other by congruence. apply HQ.
  - destruct (dict_get rid (requests st)) as [r0|] eqn:Hget0;
      [destruct (status_eqb (status r0) GRANTED)|]; cbn [fst snd succeeded];
      rewrite ?andb_false_r; try apply HQ.
    cbn [committed requests]. rewrite andb_true_r.
    destruct (String.eqb_spec k rid) as [->|Hne].
    + rewrite dict_get_set_same. intros [= <-]. cbn. split; [reflexivity|].
      split; discriminate.
    + rewrite dict_get_set_other by congruence. apply HQ.
Qed.

Lemma actor_recorded_run acts : forall st cur,
  forallb is_lifecycle acts = true ->
  actor_recorded st cur ->
  actor_recorded (run acts st) (last_actor acts st cur).
Proof.
  unfold run.
  induction acts as [|a acts IH]; intros st cur Hall HQ; cbn [fold_left last_actor].
  - exact HQ.
  - cbn [forallb] in Hall. apply andb_true_iff in Hall as [Ha Hall].
    apply IH; [exact Hall|]. now apply actor_recorded_step.
Qed.

(** C10: in every state reached from an empty registry by create, grant, deny
    and revoke, a stored request has no [granted_by] exactly when it is
    pending, and the [granted_by] of every other request is the actor of the
    latest successful transition of that request. *)
Theorem granted_by_none_iff_pending (st0 : state) (acts : list action)
    (k : string) (r : PermissionRequest) :
  initial st0 ->
  forallb is_lifecycle acts = true ->
  get_request k (run acts st0) = Some r ->
  (granted_by r = None <-> status r = PENDING) /\
  granted_by r = last_actor acts st0 (fun _ => None) k.
Proof.
  intros [Hreq _] Hall Hget.
  assert (H0 : actor_recorded st0 (fun _ => None)).
  { intros k' r'. unfold get_request. rewrite Hreq. discriminate. }
  destruct (actor_recorded_run acts st0 _ Hall H0 k r Hget) as [H1 H2].
  split; [exact H2 | exact H1].
Qed.

Lemma granted_by_none_iff_pending_witness :
  (granted_by denied_one = None <-> status denied_one = PENDING) /\
  granted_by denied_one = Some "admin".
Proof.
  exact (granted_by_none_iff_pending (new_state clock_us) deny_first id1 denied_one
           (conj eq_refl eq_refl) eq_refl eq_refl).
Defined.

(** ** Queries: [list_requests], [has_permission], [get_request] *)

Lemma filter_twice {A} (f g : A -> bool) l :
  filter g (filter f l) = filter (fun x => f x && g x) l.
Proof.
  induction l as [|x l IH]; simpl; [reflexivity|].
  destruct (f x); simpl; [destruct (g x)|]; now rewrite IH.
Qed.

Lemma filter_all {A} (l : list A) : filter (fun _ => true) l = l.
Proof. induction l as [|x l IH]; simpl; [reflexivity | now rewrite IH]. Qed.

Lemma list_requests_eq by_status by_source by_requester st :
  list_requests by_status by_source by_requester st
  = filter (matches by_status by_source by_requester) (dict_values (requests st)).
Proof.
  unfold list_requests, matches.
  destruct by_status, by_source, by_requester; cbn -[filter];
    rewrite ?filter_twice;
    try (symmetry; apply filter_all);
    apply filter_ext; intros r; rewrite ?andb_true_r, ?andb_assoc; reflexivity.
Qed.

(** X1: [list_requests] returns the stored requests that pass every supplied
    filter, in insertion order; with no filter it returns them all. *)
Theorem list_requests_selects (st : state) :
  (forall by_status by_source by_requester,
     list_requests by_status by_source by_requester st
     = filter (matches by_status by_source by_requester) (dict_values (requests st))) /\
  (forall by_status by_source by_requester r,
     In r (list_requests by_status by_source by_requester st) <->
     In r (dict_values (requests st)) /\
     (forall s, by_status = Some s -> status r = s) /\
     (forall s, by_source = Some s -> data_source r = s) /\
     (forall q, by_requester = Some q -> requester r = q)) /\
  list_requests None None None st = dict_values (requests st).
Proof.
  split; [intros; apply list_requests_eq|]. split.
  - intros s d q r. rewrite list_requests_eq, filter_In. unfold matches.
    rewrite !andb_true_iff.
    split; intros (Hin & H); (split; [exact Hin|]).
    + destruct H as [[Hs Hd] Hq]. repeat split.
      * intros s' ->. now apply status_eqb_eq.
      * intros d' ->. now apply source_eqb_eq.
      * intros q' ->. now apply String.eqb_eq.
    + destruct H as (Hs & Hd & Hq). repeat split.
      * destruct s; [apply status_eqb_eq; auto | reflexivity].
      * destruct d; [apply source_eqb_eq; auto | reflexivity].
      * destruct q; [apply String.eqb_eq; auto | reflexivity].
  - reflexivity.
Qed.

(** X2: [has_permission] is true exactly when some stored request has that
    requester and source and status granted, that is, when the listing
    filtered by granted, source and requester is not empty. *)
Theorem has_permission_iff (st : state) (who : string) (src : DataSource) :
  (has_permission who src st = true <->
   exists r, In r (dict_values (requests st)) /\
             requester r = who /\ data_source r = src /\ status r = GRANTED) /\
  (has_permission who src st = true <->
   list_requests (Some GRANTED) (Some src) (Some who) st <> []).
Proof.
  assert (Hex : has_permission who src st = true <->
                exists r, In r (dict_values (requests st)) /\
                          requester r = who /\ data_source r = src /\ status r = GRANTED).
  { unfold has_permission. rewrite existsb_exists.
    split; intros (r & Hin & H); exists r; (split; [exact Hin|]).
    - rewrite !andb_true_iff in H. destruct H as [[Hq Hd] Hs].
      apply String.eqb_eq in Hq. apply source_eqb_eq in Hd. apply status_eqb_eq in Hs.
      auto.
    - destruct H as (Hq & Hd & Hs).
      apply String.eqb_eq in Hq. apply source_eqb_eq in Hd. apply status_eqb_eq in Hs.
      now rewrite Hq, Hd, Hs. }
  split; [exact Hex|].
  rewrite Hex. destruct (list_requests_selects st) as (_ & Hin & _).
  split.
  - intros (r & Hr & Hq & Hd & Hs) Hnil.
    assert (H : In r (list_requests (Some GRANTED) (Some src) (Some who) st)).
    { apply Hin. split; [exact Hr|]. repeat split; intros ? [= <-]; auto. }
    rewrite Hnil in H. exact H.
  - intros Hne.
    destruct (list_requests (Some GRANTED) (Some src) (Some who) st) as [|r l] eqn:Hl;
      [congruence|].
    assert (H : In r (list_requests (Some GRANTED) (Some src) (Some who) st))
      by (rewrite Hl; now left).
    apply Hin in H as (Hr & Hs & Hd & Hq).
    exists r. repeat split; auto.
Qed.

(** X3: [clear_all] never raises and leaves nothing behind: the registry is
    empty under every query, the store file is gone, and a manager constructed
    afterwards starts empty. *)
Theorem clear_all_empties (st : state) :
  fst (clear_all st) = Return tt /\
  requests (snd (clear_all st)) = [] /\
  storage (snd (clear_all st)) = None /\
  (forall by_status by_source by_requester,
     list_requests by_status by_source by_requester (snd (clear_all st)) = []) /\
  (forall who src, has_permission who src (snd (clear_all st)) = false) /\
  (forall rid, get_request rid (snd (clear_all st)) = None) /\
  fst (init (snd (clear_all st))) = Return tt /\
  requests (snd (init (snd (clear_all st)))) = [] /\
  storage (snd (init (snd (clear_all st)))) = None.
Proof.
  rewrite clear_all_eq. cbn [fst snd].
  repeat split; try reflexivity.
  intros s d q. rewrite list_requests_eq. reflexivity.
Qed.

(** ** Deny and revoke *)

Lemma existsb_values_split {V} (f : V -> bool) k (v0 : V) d :
  dict_get k d = Some v0 ->
  existsb f (dict_values d) = f v0 || existsb f (dict_values (dict_remove k d)).
Proof.
  induction d as [|[k' v'] d IH]; simpl; [discriminate|].
  destruct (String.eqb k k') eqn:E; simpl.
  - intros [= ->]. reflexivity.
  - intros H. rewrite (IH H). destruct (f v0), (f v'); reflexivity.
Qed.

(** X4: Denying a stored pending request returns it with status denied, the
    denier in [granted_by] and the reading of the clock in [updated_at]; the
    notes are replaced by a non-empty value only; the identifying fields, the
    other requests and the order of the keys are kept. *)
Theorem deny_pending_request (st : state) (rid actor : string)
    (note : option string) (r : PermissionRequest) :
  get_request rid st = Some r ->
  status r = PENDING ->
  exists r',
    fst (deny_permission rid actor note st) = Return r' /\
    get_request rid (snd (deny_permission rid actor note st)) = Some r' /\
    status r' = DENIED /\
    granted_by r' = Some actor /\
    updated_at r' = isoformat (clock st (ticks st)) /\
    notes r' = (if truthy note then note else notes r) /\
    same_identity r r' /\
    (forall k, k <> rid ->
       get_request k (snd (deny_permission rid actor note st)) = get_request k st) /\
    dict_keys (requests (snd (deny_permission rid actor note st)))
      = dict_keys (requests st).
Proof.
  unfold get_request. intros Hget Hs.
  rewrite deny_permission_eq, Hget, Hs. cbn [status_eqb fst snd].
  eexists. split; [reflexivity|].
  cbn [committed requests]. rewrite dict_get_set_same.
  repeat split; try reflexivity.
  - intros k Hk. now apply dict_get_set_other.
  - eapply dict_keys_set_present; eauto.
Qed.

Lemma deny_pending_request_witness :
  exists r',
    fst (deny_permission id1 "admin" (Some "no") (state_one clock_us None)) = Return r' /\
    status r' = DENIED /\ notes r' = Some "no".
Proof.
  destruct (deny_pending_request (state_one clock_us None) id1 "admin" (Some "no")
              (created (new_state clock_us) "alice" WORLD_BANK_API "research" None)
              eq_refl eq_refl)
    as (r' & H1 & _ & H3 & _ & _ & H6 & _).
  exists r'. split; [exact H1|]. split; [exact H3 | exact H6].
Defined.

(** X5: Revoking a stored granted request returns it with status revoked, the
    revoker in [granted_by] (the grantor is overwritten) and the reading of
    the clock in [updated_at]; the identifying fields, the other requests and
    the order of the keys are kept. *)
Theorem revoke_granted_request (st : state) (rid actor : string)
    (note : option string) (r : PermissionRequest) :
  get_request rid st = Some r ->
  status r = GRANTED ->
  exists r',
    fst (revoke_permission rid actor note st) = Return r' /\
    get_request rid (snd (revoke_permission rid actor note st)) = Some r' /\
    status r' = REVOKED /\
    granted_by r' = Some actor /\
    updated_at r' = isoformat (clock st (ticks st)) /\
    notes r' = (if truthy note then note else notes r) /\
    same_identity r r' /\
    (forall k, k <> rid ->
       get_request k (snd (revoke_permission rid actor note st)) = get_request k st) /\
    dict_keys (requests (snd (revoke_permission rid actor note st)))
      = dict_keys (requests st).
Proof.
  unfold get_request. intros Hget Hs.
  rewrite revoke_permission_eq, Hget, Hs. cbn [status_eqb fst snd].
  eexists. split; [reflexivity|].
  cbn [committed requests]. rewrite dict_get_set_same.
  repeat split; try reflexivity.
  - intros k Hk. now apply dict_get_set_other.
  - eapply dict_keys_set_present; eauto.
Qed.

Lemma revoke_granted_request_witness :
  exists r',
    fst (revoke_permission id1 "security" None state_granted) = Return r' /\
    status r' = REVOKED /\ granted_by r' = Some "security".
Proof.
  destruct (revoke_granted_request state_granted id1 "security" None granted_one
              eq_refl eq_refl)
    as (r' & H1 & _ & H3 & H4 & _).
  exists r'. split; [exact H1|]. split; [exact H3 | exact H4].
Defined.

(** ** Which operations change an answer of [has_permission] *)

Lemma has_permission_committed who src n d entry st :
  has_permission who src (committed n d entry st)
  = existsb (grants who src) (dict_values d).
Proof. reflexivity. Qed.

Lemma has_permission_grants who src st :
  has_permission who src st = existsb (grants who src) (dict_values (requests st)).
Proof. reflexivity. Qed.

Lemma grants_status who src r : status r <> GRANTED -> grants who src r = false.
Proof.
  intros H. unfold grants. apply status_eqb_neq in H. rewrite H.
  now rewrite andb_false_r.
Qed.

(** X6: No call of deny changes an answer of [has_permission]; a call of grant
    never turns an answer from true to false, and a call of revoke never
    turns one from false to true; in the states a new registry reaches,
    create changes no answer either. *)
Theorem permission_changes (who : string) (src : DataSource) :
  (forall st rid actor note,
     has_permission who src (snd (deny_permission rid actor note st))
     = has_permission who src st) /\
  (forall st rid actor note,
     has_permission who src st = true ->
     has_permission who src (snd (grant_permission rid actor note st)) = true) /\
  (forall st rid actor note,
     has_permission who src (snd (revoke_permission rid actor note st)) = true ->
     has_permission who src st = true) /\
  (forall st0 acts who' src' why note,
     initial st0 ->
     has_permission who src (snd (create_request who' src' why note (run acts st0)))
     = has_permission who src (run acts st0)).
Proof.
  split; [|split; [|split]].
  - intros st rid actor note. rewrite deny_permission_eq.
    destruct (dict_get rid (requests st)) as [r|] eqn:Hget; [|reflexivity].
    destruct (status_eqb (status r) PENDING) eqn:Hs; [|reflexivity].
    cbn [snd]. rewrite has_permission_committed, has_permission_grants.
    rewrite (existsb_values_set _ _ _ _ _ Hget), (existsb_values_split _ _ _ _ Hget).
    apply status_eqb_eq in Hs.
    rewrite !grants_status; [reflexivity | congruence | discriminate].
  - intros st rid actor note. rewrite grant_permission_eq.
    destruct (dict_get rid (requests st)) as [r|] eqn:Hget; [|auto].
    destruct (status_eqb (status r) PENDING) eqn:Hs; [|auto].
    cbn [snd]. rewrite has_permission_committed, has_permission_grants.
    rewrite (existsb_values_set _ _ _ _ _ Hget), (existsb_values_split _ _ _ _ Hget).
    apply status_eqb_eq in Hs.
    rewrite (grants_status who src r) by congruence. cbn [orb].
    intros ->. apply orb_true_r.
  - intros st rid actor note. rewrite revoke_permission_eq.
    destruct (dict_get rid (requests st)) as [r|] eqn:Hget; [|auto].
    destruct (status_eqb (status r) GRANTED) eqn:Hs; [|auto].
    cbn [snd]. rewrite has_permission_committed, has_permission_grants.
    rewrite (existsb_values_set _ _ _ _ _ Hget), (existsb_values_split _ _ _ _ Hget).
    rewrite grants_status by discriminate. cbn [orb].
    intros ->. apply orb_true_r.
  - intros st0 acts who' src' why note Hinit.
    destruct (run_reachable_invariant st0 acts Hinit) as [_ Hnum].
    rewrite create_request_eq. cbv zeta. cbn [snd].
    rewrite has_permission_committed, has_permission_grants.
    cbn [created request_id].
    rewrite dict_set_absent by now apply numbered_fresh.
    unfold dict_values. rewrite map_app, existsb_app. cbn [map snd existsb].
    rewrite grants_status by discriminate. now rewrite !orb_false_r.
Qed.

Lemma permission_changes_witness :
  has_permission "alice" WORLD_BANK_API
                 (snd (grant_permission id2 "admin" None state_granted)) = true /\
  has_permission "alice" WORLD_BANK_API state_granted = true /\
  has_permission "alice" WORLD_BANK_API
                 (snd (create_request "bob" CUSTOM "audit" None
                         (run deny_first (new_state clock_us))))
  = has_permission "alice" WORLD_BANK_API (run deny_first (new_state clock_us)).
Proof.
  destruct (permission_changes "alice" WORLD_BANK_API) as (_ & Hg & Hr & Hc).
  split; [|split].
  - exact (Hg state_granted id2 "admin" None eq_refl).
  - exact (Hr state_granted "nobody" "security" None eq_refl).
  - exact (Hc (new_state clock_us) deny_first "bob" CUSTOM "audit" None
              (conj eq_refl eq_refl)).
Defined.

(** ** What create adds *)

(** X7: In the states a new registry reaches, create puts the new request last:
    the unfiltered listing is the old one followed by the new request, whose
    identifier carries the size of the registry plus one; every other
    identifier still fetches what it fetched. *)
Theorem create_appends (st0 : state) (acts : list action)
    (who : string) (src : DataSource) (why : string) (note : option string) :
  initial st0 ->
  exists r,
    fst (create_request who src why note (run acts st0)) = Return r /\
    request_id r = make_id (clock (run acts st0) (ticks (run acts st0)))
                           (List.length (requests (run acts st0)) + 1) /\
    requester r = who /\ data_source r = src /\ purpose r = why /\
    notes r = note /\ granted_by r = None /\
    list_requests None None None (snd (create_request who src why note (run acts st0)))
    = (list_requests None None None (run acts st0) ++ [r])%list /\
    (forall k, k <> request_id r ->
       get_request k (snd (create_request who src why note (run acts st0)))
       = get_request k (run acts st0)).
Proof.
  intros Hinit. destruct (run_reachable_invariant st0 acts Hinit) as [_ Hnum].
  rewrite create_request_eq. cbv zeta. cbn [fst snd].
  eexists. split; [reflexivity|].
  repeat split; try reflexivity.
  - unfold list_requests. cbn [committed requests created request_id].
    rewrite dict_set_absent by now apply numbered_fresh.
    unfold dict_values. now rewrite map_app.
  - intros k Hk. unfold get_request. cbn [committed requests].
    apply dict_get_set_other. cbn [created request_id] in *. congruence.
Qed.

Lemma create_appends_witness :
  exists r,
    fst (create_request "bob" CUSTOM "audit" None state_two_granted) = Return r /\
    request_id r = "PR-20261103120000-0003".
Proof.
  destruct (create_appends (new_state clock_us)
              [Create "alice" WORLD_BANK_API "research" None;
               Create "alice" WORLD_BANK_API "teaching" None;
               Grant id1 "admin" None;
               Grant id2 "admin" None]
              "bob" CUSTOM "audit" None (conj eq_refl eq_refl))
    as (r & H1 & H2 & _).
  exists r. split; [exact H1|]. rewrite H2. reflexivity.
Defined.

(** ** Identifiers and keys *)

Lemma keyed_set k r d : keyed d -> request_id r = k -> keyed (dict_set k r d).
Proof.
  intros Hk Hr k' r'. destruct (String.eqb_spec k k') as [<-|Hne].
  - rewrite dict_get_set_same. now intros [= <-].
  - rewrite dict_get_set_other by exact Hne. apply Hk.
Qed.

Lemma perform_keyed a st : stable st -> keyed (requests st) -> keyed (requests (perform a st)).
Proof.
  intros Hst Hk.
  step_cases a st; auto; cbn [committed requests];
    try (apply keyed_set; [exact Hk | cbn; now apply Hk]).
  - apply keyed_set; [exact Hk | reflexivity].
  - intros k r. discriminate.
  - destruct (init_stable st Hst) as [entry ->]. exact Hk.
Qed.

Lemma run_keyed st0 acts : initial st0 -> keyed (requests (run acts st0)).
Proof.
  intros Hinit.
  assert (H : stable (run acts st0) /\ keyed (requests (run acts st0))).
  { apply (run_invariant (fun st => stable st /\ keyed (requests st))).
    - intros a st [Hst Hk]. split; [now apply perform_stable | now apply perform_keyed].
    - split; [now apply initial_stable|]. destruct Hinit as [-> _].
      intros k r. discriminate. }
  apply H.
Qed.

Lemma dict_get_of_In {V} k (v : V) d :
  NoDup (dict_keys d) -> In (k, v) d -> dict_get k d = Some v.
Proof.
  induction d as [|[k' v'] d IH]; simpl; [tauto|].
  intros Hnd [[= -> ->]|Hin].
  - now rewrite String.eqb_refl.
  - inversion Hnd as [|? ? Hnotin Hnd']; subst.
    destruct (String.eqb_spec k k') as [->|Hne]; [|auto].
    exfalso. apply Hnotin. change (In (fst (k', v)) (map fst d)). now apply in_map.
Qed.

(** X8: In every state a new registry reaches, the stored identifiers are
    pairwise distinct, the i-th one (from 0) was generated with sequence
    number i + 1, every request is stored under its own [request_id], and
    every request of the listing is fetched again by [get_request] of its
    [request_id]. *)
Theorem identifiers_are_keys (st0 : state) (acts : list action) :
  initial st0 ->
  NoDup (dict_keys (requests (run acts st0))) /\
  (forall i k, nth_error (dict_keys (requests (run acts st0))) i = Some k ->
     exists t, k = make_id t (i + 1)) /\
  (forall k r, get_request k (run acts st0) = Some r -> request_id r = k) /\
  (forall r, In r (list_requests None None None (run acts st0)) ->
     get_request (request_id r) (run acts st0) = Some r).
Proof.
  intros Hinit.
  destruct (run_reachable_invariant st0 acts Hinit) as [[Hnd _] Hnum].
  pose proof (run_keyed st0 acts Hinit) as Hk.
  split; [exact Hnd|]. split; [exact Hnum|]. split; [exact Hk|].
  intros r Hin. unfold list_requests, dict_values in Hin.
  apply in_map_iff in Hin as [[k r'] [Heq Hin]]. cbn in Heq. subst r'.
  pose proof (dict_get_of_In _ _ _ Hnd Hin) as Hget.
  unfold get_request. now rewrite (Hk _ _ Hget).
Qed.

Lemma identifiers_are_keys_witness :
  NoDup (dict_keys (requests state_two_granted)) /\
  (forall k r, get_request k state_two_granted = Some r -> request_id r = k).
Proof.
  pose proof (identifiers_are_keys (new_state clock_us)
              [Create "alice" WORLD_BANK_API "research" None;
               Create "alice" WORLD_BANK_API "teaching" None;
               Grant id1 "admin" None;
               Grant id2 "admin" None] (conj eq_refl eq_refl)) as (H1 & _ & H3 & _).
  split; [exact H1 | exact H3].
Defined.

(** X9: Two identifiers generated by [_generate_request_id] are equal only if
    the two clock readings fall in the same second and the two registries
    hold the same number of requests. *)
Theorem generated_ids_differ (st st' : state) (rid : string) :
  fst (_generate_request_id st) = Return rid ->
  fst (_generate_request_id st') = Return rid ->
  strftime_compact (clock st (ticks st)) = strftime_compact (clock st' (ticks st')) /\
  List.length (requests st) = List.length (requests st').
Proof.
  unfold _generate_request_id. unfold_py. intros H1 H2.
  assert (H : make_id (clock st (ticks st)) (List.length (requests st) + 1)
              = make_id (clock st' (ticks st')) (List.length (requests st') + 1))
    by (unfold make_id; congruence).
  apply make_id_inj in H as [Ht Hc].
  split; [exact Ht | lia].
Qed.

Lemma generated_ids_differ_witness :
  List.length (requests (new_state clock_us))
  = List.length (requests (new_state clock_same_second)).
Proof.
  exact (proj2 (generated_ids_differ (new_state clock_us) (new_state clock_same_second)
                  id1 eq_refl eq_refl)).
Defined.

(** ** Histories of one request *)

Lemma status_le_refl s : status_le s s = true.
Proof. now destruct s. Qed.

Lemma status_le_trans a b c :
  status_le a b = true -> status_le b c = true -> status_le a c = true.
Proof. destruct a, b, c; simpl; congruence. Qed.

Lemma same_identity_refl r : same_identity r r.
Proof. repeat split. Qed.

Lemma same_identity_trans a b c :
  same_identity a b -> same_identity b c -> same_identity a c.
Proof.
  intros (H1 & H2 & H3 & H4 & H5) (K1 & K2 & K3 & K4 & K5).
  repeat split; congruence.
Qed.

Lemma perform_history a st k r :
  reachable_invariant st ->
  keeps_records a = true ->
  get_request k st = Some r ->
  exists r',
    get_request k (perform a st) = Some r' /\
    same_identity r r' /\
    status_le (status r) (status r') = true.
Proof.
  unfold get_request. intros [Hst Hnum] Ha Hget.
  assert (Hsame : exists r', dict_get k (requests st) = Some r' /\
                             same_identity r r' /\
                             status_le (status r) (status r') = true).
  { exists r. split; [exact Hget|]. split; [apply same_identity_refl | apply status_le_refl]. }
  step_cases a st; try discriminate; auto; cbn [committed requests].
  - rewrite dict_get_set_other; [exact Hsame|].
    cbn [created request_id]. intros <-.
    rewrite numbered_fresh in Hget by exact Hnum. discriminate.
  - destruct (String.eqb_spec rid k) as [->|Hne];
      [|rewrite dict_get_set_other by exact Hne; exact Hsame].
    rewrite dict_get_set_same. rewrite Hget in Hget0. injection Hget0 as <-.
    apply status_eqb_eq in Hst0. eexists. split; [reflexivity|].
    split; [repeat split | now rewrite Hst0].
  - destruct (String.eqb_spec rid k) as [->|Hne];
      [|rewrite dict_get_set_other by exact Hne; exact Hsame].
    rewrite dict_get_set_same. rewrite Hget in Hget0. injection Hget0 as <-.
    apply status_eqb_eq in Hst0. eexists. split; [reflexivity|].
    split; [repeat split | now rewrite Hst0].
  - destruct (String.eqb_spec rid k) as [->|Hne];
      [|rewrite dict_get_set_other by exact Hne; exact Hsame].
    rewrite dict_get_set_same. rewrite Hget in Hget0. injection Hget0 as <-.
    apply status_eqb_eq in Hst0. eexists. split; [reflexivity|].
    split; [repeat split | now rewrite Hst0].
  - destruct (init_stable st Hst) as [entry ->]. exact Hsame.
Qed.

(** X10: In the states a new registry reaches, a stored request stays stored
    under its identifier through every sequence of operations without
    [clear_all]; its identifier, requester, source, purpose and [created_at]
    never change, and its status only moves forward along
    pending -> granted -> revoked or pending -> denied. *)
Theorem request_history (st0 : state) (before after : list action)
    (k : string) (r : PermissionRequest) :
  initial st0 ->
  forallb keeps_records after = true ->
  get_request k (run before st0) = Some r ->
  exists r',
    get_request k (run after (run before st0)) = Some r' /\
    same_identity r r' /\
    status_le (status r) (status r') = true.
Proof.
  intros Hinit Hall Hget.
  pose proof (run_reachable_invariant st0 before Hinit) as Hinv.
  revert r Hinv Hget. generalize (run before st0). unfold run.
  induction after as [|a acts IH]; intros st r Hinv Hget; cbn [fold_left].
  - exists r. split; [exact Hget|].
    split; [apply same_identity_refl | apply status_le_refl].
  - cbn [forallb] in Hall. apply andb_true_iff in Hall as [Ha Hall].
    destruct (perform_history a st k r Hinv Ha Hget) as (r1 & Hget1 & Hid1 & Hle1).
    destruct (IH Hall (perform a st) r1 (perform_reachable_invariant _ _ Hinv) Hget1)
      as (r2 & Hget2 & Hid2 & Hle2).
    exists r2. split; [exact Hget2|].
    split; [eapply same_identity_trans | eapply status_le_trans]; eauto.
Qed.

Lemma request_history_witness :
  exists r',
    get_request id1 (run [Grant id1 "admin" None; Create "bob" CUSTOM "audit" None;
                          Revoke id1 "security" None; Reopen]
                         (state_one clock_us None)) = Some r' /\
    request_id r' = id1 /\
    status_le PENDING (status r') = true.
Proof.
  destruct (request_history (new_state clock_us)
              [Create "alice" WORLD_BANK_API "research" None]
              [Grant id1 "admin" None; Create "bob" CUSTOM "audit" None;
               Revoke id1 "security" None; Reopen]
              id1 (created (new_state clock_us) "alice" WORLD_BANK_API "research" None)
              (conj eq_refl eq_refl) eq_refl eq_refl)
    as (r' & H1 & (H2 & _) & H3).
  exists r'. split; [exact H1|]. split; [exact H2 | exact H3].
Defined.

(** ** What the operations write *)

(** X11: When create, grant, deny or revoke returns, the store file holds the
    serialization of the whole registry as it is after the call: one entry
    per stored request, in the order of the registry, each the [to_dict] of
    the request. *)
Theorem returning_operations_write_all (st : state) :
  (forall who src why note,
     storage (snd (create_request who src why note st))
     = Some (Parsed (JObj (map (fun kv => (fst kv, to_dict (snd kv)))
                               (requests (snd (create_request who src why note st))))))) /\
  (forall op rid actor note r',
     In op [grant_permission; deny_permission; revoke_permission] ->
     fst (op rid actor note st) = Return r' ->
     storage (snd (op rid actor note st))
     = Some (Parsed (JObj (map (fun kv => (fst kv, to_dict (snd kv)))
                               (requests (snd (op rid actor note st))))))).
Proof.
  split.
  - intros. rewrite create_request_eq. reflexivity.
  - intros op rid actor note r' Hop.
    destruct Hop as [<-|[<-|[<-|[]]]];
      [ rewrite grant_permission_eq
      | rewrite deny_permission_eq
      | rewrite revoke_permission_eq ];
      destruct (dict_get rid (requests st)) as [r|]; try discriminate;
      match goal with
      | |- context [status_eqb ?a ?b] => destruct (status_eqb a b)
      end; try discriminate; reflexivity.
Qed.

Lemma returning_operations_write_all_witness :
  storage state_granted
  = Some (Parsed (JObj [(id1, to_dict granted_one)])).
Proof.
  exact (proj2 (returning_operations_write_all (state_one clock_us None))
           grant_permission id1 "admin" None granted_one (or_introl eq_refl) eq_refl).
Defined.

(** ** The constructor and the loader *)
















(** ** [from_dict] on entries that [to_dict] did not write *)



Lemma DataSource_call_value ds st :
  DataSource_call (JStr (source_value ds)) st = (Return ds, st).
Proof. now destruct ds. Qed.

Lemma PermissionStatus_call_value s st :
  PermissionStatus_call (JStr (status_value s)) st = (Return s, st).
Proof. now destruct s. Qed.




(** X14: An entry that holds the five fields without default as strings and
    nothing else is read with two fresh clock readings as [created_at] and
    [updated_at], in this order, and with no [granted_by] and no notes: the
    timestamps then depend on when the file is loaded. *)
Theorem from_dict_defaults (st : state) (d : dict json)
    (i q p : string) (ds : DataSource) (s : PermissionStatus) :
  dict_get "request_id" d = Some (JStr i) ->
  dict_get "requester" d = Some (JStr q) ->
  dict_get "data_source" d = Some (JStr (source_value ds)) ->
  dict_get "purpose" d = Some (JStr p) ->
  dict_get "status" d = Some (JStr (status_value s)) ->
  (forall k, In k (dict_keys d) ->
     In k ["request_id"; "requester"; "data_source"; "purpose"; "status"]) ->
  from_dict (JObj d) st
  = (Return (mkRequest i q ds p s
               (isoformat (clock st (ticks st)))
               (isoformat (clock st (S (ticks st))))
               None None),
     set_ticks (2 + ticks st) st).
Proof.
  intros Hi Hq Hds Hp Hs Hkeys.
  assert (Habs : forall k, ~ In k ["request_id"; "requester"; "data_source";
                                    "purpose"; "status"] ->
                           dict_get k d = None).
  { intros k Hk. apply dict_get_None_iff. intros Hin. now apply Hkeys in Hin. }
  assert (Hfind : find (fun k => negb (existsb (String.eqb k) field_names)) (dict_keys d)
                  = None).
  { destruct (find _ (dict_keys d)) as [k'|] eqn:Hf; [|reflexivity].
    apply find_some in Hf as [Hin Hneg]. apply Hkeys in Hin.
    cbn in Hin. destruct Hin as [<-|[<-|[<-|[<-|[<-|[]]]]]]; discriminate. }
  unfold from_dict, bind, getitem. rewrite Hds. cbn [ret].
  rewrite DataSource_call_value, Hs. cbn [ret].
  rewrite PermissionStatus_call_value.
  unfold PermissionRequest_init. rewrite Hfind, Hi, Hq, Hp.
  rewrite (Habs "created_at"), (Habs "updated_at"), (Habs "granted_by"), (Habs "notes");
    try (cbn; intros [H|[H|[H|[H|[H|[]]]]]]; discriminate).
  reflexivity.
Qed.

Lemma from_dict_defaults_witness :
  from_dict (JObj [("request_id", JStr "PR-1"); ("requester", JStr "alice");
                   ("data_source", JStr "custom"); ("purpose", JStr "audit");
                   ("status", JStr "granted")]) (new_state clock_us)
  = (Return (mkRequest "PR-1" "alice" CUSTOM "audit" GRANTED
               (isoformat (clock_us 0)) (isoformat (clock_us 1)) None None),
     set_ticks 2 (new_state clock_us)).
Proof.
  apply (from_dict_defaults (new_state clock_us) _ "PR-1" "alice" "audit" CUSTOM GRANTED);
    try reflexivity.
  intros k Hin. cbn in Hin. cbn.
  destruct Hin as [<-|[<-|[<-|[<-|[<-|[]]]]]]; auto 6.
Defined.

(** ** The demonstration driver *)





(** ** Timestamps under a clock that does not go back *)

Lemma perform_stamped a st :
  stable st -> stamped st ->
  stamped (perform a st) /\ clock (perform a st) = clock st.
Proof.
  intros Hst Hsp. unfold stamped, get_request in *.
  step_cases a st; auto; cbn [committed requests clock ticks].
  - split; [|reflexivity]. intros k r.
    set (rid := request_id (created st who src why note)).
    destruct (String.eqb_spec rid k) as [<-|Hne].
    + rewrite dict_get_set_same. intros [= <-].
      exists (S (ticks st)), (S (S (ticks st))). cbn. repeat split; lia.
    + rewrite dict_get_set_other by exact Hne. intros Hget.
      destruct (Hsp _ _ Hget) as (i & j & Hij & Hj & Hc & Hu).
      exists i, j. repeat split; auto; lia.
  - split; [|reflexivity]. intros k r.
    destruct (String.eqb_spec rid k) as [<-|Hne].
    + rewrite dict_get_set_same. intros [= <-].
      destruct (Hsp _ _ Hget0) as (i & j & Hij & Hj & Hc & Hu).
      exists i, (ticks st). cbn. repeat split; auto; lia.
    + rewrite dict_get_set_other by exact Hne. intros Hget.
      destruct (Hsp _ _ Hget) as (i & j & Hij & Hj & Hc & Hu).
      exists i, j. repeat split; auto; lia.
  - split; [|reflexivity]. intros k r.
    destruct (String.eqb_spec rid k) as [<-|Hne].
    + rewrite dict_get_set_same. intros [= <-].
      destruct (Hsp _ _ Hget0) as (i & j & Hij & Hj & Hc & Hu).
      exists i, (ticks st). cbn. repeat split; auto; lia.
    + rewrite dict_get_set_other by exact Hne. intros Hget.
      destruct (Hsp _ _ Hget) as (i & j & Hij & Hj & Hc & Hu).
      exists i, j. repeat split; auto; lia.
  - split; [|reflexivity]. intros k r.
    destruct (String.eqb_spec rid k) as [<-|Hne].
    + rewrite dict_get_set_same. intros [= <-].
      destruct (Hsp _ _ Hget0) as (i & j & Hij & Hj & Hc & Hu).
      exists i, (ticks st). cbn. repeat split; auto; lia.
    + rewrite dict_get_set_other by exact Hne. intros Hget.
      destruct (Hsp _ _ Hget) as (i & j & Hij & Hj & Hc & Hu).
      exists i, j. repeat split; auto; lia.
  - split; [|reflexivity]. intros k r. discriminate.
  - destruct (init_stable st Hst) as [entry ->]. cbn [snd]. split; [exact Hsp | reflexivity].
Qed.

Lemma run_stamped st0 acts :
  initial st0 ->
  stamped (run acts st0) /\ clock (run acts st0) = clock st0.
Proof.
  intros Hinit.
  assert (H : stable (run acts st0) /\ stamped (run acts st0)
              /\ clock (run acts st0) = clock st0).
  { apply (run_invariant (fun st => stable st /\ stamped st /\ clock st = clock st0)).
    - intros a st (Hst & Hsp & Hc).
      destruct (perform_stamped a st Hst Hsp) as [Hsp' Hc'].
      split; [now apply perform_stable|]. split; [exact Hsp' | congruence].
    - split; [now apply initial_stable|]. split; [|reflexivity].
      destruct Hinit as [Hreq _]. intros k r. unfold get_request.
      rewrite Hreq. discriminate. }
  destruct H as (_ & H1 & H2). now split.
Qed.

(** X16: In the states a new registry reaches, the timestamps of every stored
    request are renderings of clock readings, the one of [created_at] taken
    no later than the one of [updated_at]; so with a clock whose renderings
    never decrease, [created_at <= updated_at] holds for every stored
    request. *)
Theorem timestamps_ordered (st0 : state) (acts : list action)
    (k : string) (r : PermissionRequest) :
  initial st0 ->
  get_request k (run acts st0) = Some r ->
  (exists i j, i <= j /\
               created_at r = isoformat (clock st0 i) /\
               updated_at r = isoformat (clock st0 j)) /\
  (clock_nondecreasing (clock st0) ->
   String.leb (created_at r) (updated_at r) = true).
Proof.
  intros Hinit Hget.
  destruct (run_stamped st0 acts Hinit) as [Hsp Hc].
  destruct (Hsp _ _ Hget) as (i & j & Hij & _ & Hcr & Hup).
  rewrite Hc in Hcr, Hup.
  split; [exists i, j; auto|].
  intros Hmono. rewrite Hcr, Hup. now apply Hmono.
Qed.

Lemma clock_seconds_nondecreasing : clock_nondecreasing clock_seconds.
Proof.
  assert (Hall : forallb (fun a =>
                   forallb (fun b =>
                     if Nat.leb a b
                     then String.leb (isoformat (mkDatetime 2026 11 3 12 0 a 0))
                                     (isoformat (mkDatetime 2026 11 3 12 0 b 0))
                     else true) (seq 0 60)) (seq 0 60) = true)
    by (vm_compute; reflexivity).
  intros i j Hij. unfold clock_seconds.
  rewrite forallb_forall in Hall.
  assert (Ha : In (Nat.min i 59) (seq 0 60)) by (apply in_seq; lia).
  assert (Hb : In (Nat.min j 59) (seq 0 60)) by (apply in_seq; lia).
  specialize (Hall _ Ha). rewrite forallb_forall in Hall. specialize (Hall _ Hb).
  cbn beta in Hall.
  destruct (Nat.leb_spec (Nat.min i 59) (Nat.min j 59)) as [_|Hlt]; [exact Hall | lia].
Qed.

Lemma timestamps_ordered_witness :
  String.leb (created_at (transitioned GRANTED "admin" (isoformat (clock_seconds 3)) None
                            (created (new_state clock_seconds) "alice" WORLD_BANK_API
                                     "research" None)))
             (isoformat (clock_seconds 3)) = true.
Proof.
  exact (proj2 (timestamps_ordered (new_state clock_seconds)
                  [Create "alice" WORLD_BANK_API "research" None; Grant id1 "admin" None]
                  id1
                  (transitioned GRANTED "admin" (isoformat (clock_seconds 3)) None
                     (created (new_state clock_seconds) "alice" WORLD_BANK_API
                              "research" None))
                  (conj eq_refl eq_refl) eq_refl)
               clock_seconds_nondecreasing).
Defined.
